(** * BALANCE_FETCH: balance normalisation and pagination engine

    A shallow embedding of [packages/blockchain/thegraph/utils.py],
    [packages/blockchain/thegraph/client.py],
    [packages/blockchain/thegraph/balance/balance_client.py] and
    [packages/blockchain/ethereum/balance/balance_client_thegraph.py].

    Conventions of the embedding.
    - A Python [str] is a [string] of ASCII characters; [lower], [upper] and
      [int()] are modelled on that alphabet.
    - A Python [int] is a [Z]; the conversions between [int] and [str] are
      those of CPython 3.11 with its default limit of 4300 digits.
    - A Python [float] is an IEEE-754 binary64 value, a [spec_float] with
      [prec = 53] and [emax = 1024].
    - A Python [dict] is an association list in insertion order.
    - [try]/[except] is a sum type: [inr v] is a normal return, [inl e] a
      raised exception.
    - [await asyncio.sleep] and the outgoing HTTP requests are recorded in an
      event trace; the upstream service is a function of the number of
      requests sent before and of the request.
    - [while] loops run on fuel: [None] means the fuel ran out before the
      Python function returned. *)

From Stdlib Require Import ZArith Lia Bool List Ascii String.
From Stdlib Require Import DecimalString DecimalPos DecimalZ SpecFloat.
From stdpp Require Import base option list strings gmap.

Local Open Scope string_scope.
Local Open Scope Z_scope.

(** ** Python strings *)

Module PyStr.

Definition is_upper (c : ascii) : bool :=
  let n := nat_of_ascii c in (65 <=? n)%nat && (n <=? 90)%nat.

Definition is_lower (c : ascii) : bool :=
  let n := nat_of_ascii c in (97 <=? n)%nat && (n <=? 122)%nat.

Definition lower_char (c : ascii) : ascii :=
  if is_upper c then ascii_of_nat (nat_of_ascii c + 32) else c.

Definition upper_char (c : ascii) : ascii :=
  if is_lower c then ascii_of_nat (nat_of_ascii c - 32) else c.

Fixpoint map_chars (f : ascii -> ascii) (s : string) : string :=
  match s with
  | EmptyString => EmptyString
  | String c r => String (f c) (map_chars f r)
  end.

(** [s.lower()] and [s.upper()] *)
Definition lower : string -> string := map_chars lower_char.
Definition upper : string -> string := map_chars upper_char.

(** [len(s)] *)
Definition len (s : string) : Z := Z.of_nat (String.length s).

(** The decimal digits of an [int], with a minus sign when it is negative:
    [str(n)] where it succeeds (see [Py.str]). *)
Definition str (n : Z) : string := NilZero.string_of_int (Z.to_int n).

Fixpoint repeat_char (c : ascii) (n : nat) : string :=
  match n with
  | O => EmptyString
  | S k => String c (repeat_char c k)
  end.

(** [s.zfill(width)]: zeros are inserted after a leading sign. *)
Definition zfill (s : string) (width : Z) : string :=
  let pad := repeat_char "0" (Z.to_nat (width - len s)) in
  match s with
  | String c r =>
      if (Ascii.eqb c "+" || Ascii.eqb c "-")%bool
      then String c (pad ++ r) else pad ++ s
  | EmptyString => pad
  end.

(** [s.rstrip(c)] for a one-character argument *)
Fixpoint rstrip (c : ascii) (s : string) : string :=
  match s with
  | EmptyString => EmptyString
  | String a r =>
      match rstrip c r with
      | EmptyString => if Ascii.eqb a c then EmptyString else String a EmptyString
      | r' => String a r'
      end
  end.

Fixpoint prefix_b (p s : string) : bool :=
  match p, s with
  | EmptyString, _ => true
  | String a p', String b s' => Ascii.eqb a b && prefix_b p' s'
  | String _ _, EmptyString => false
  end.

(** [p in s] for strings *)
Fixpoint contains (p s : string) : bool :=
  prefix_b p s ||
  match s with
  | EmptyString => false
  | String _ r => contains p r
  end.

(** Truth value of a string: only [""] is false. *)
Definition truthy (s : string) : bool :=
  match s with EmptyString => false | _ => true end.

(** *** [int(s)]

    The conversion of CPython 3.11 with its default settings, on ASCII
    strings: the blanks of the C locale are skipped on both sides, one sign
    is allowed, underscores only between digits, and a run of more than
    [max_str_digits] digits is refused before anything after the run is
    looked at. *)

(** [sys.get_int_max_str_digits()] *)
Definition max_str_digits : Z := 4300.

(** Characters that [int()] skips on both sides: tab, line feed, vertical
    tab, form feed, carriage return and the space. *)
Definition is_space (c : ascii) : bool :=
  let n := nat_of_ascii c in
  ((9 <=? n)%nat && (n <=? 13)%nat) || (n =? 32)%nat.

Definition digit_val (c : ascii) : option Z :=
  let n := nat_of_ascii c in
  if (48 <=? n)%nat && (n <=? 57)%nat then Some (Z.of_nat (n - 48)) else None.

Fixpoint lstrip_space (s : string) : string :=
  match s with
  | String c r => if is_space c then lstrip_space r else s
  | EmptyString => EmptyString
  end.

Fixpoint all_space (s : string) : bool :=
  match s with
  | String c r => is_space c && all_space r
  | EmptyString => true
  end.

(** The run of digits and underscores at the head of [s]: the number of
    its digits, their value and what follows the run. [after_underscore]
    tells that the character before [s] was an underscore; [None] when two
    underscores meet or the run ends with one. *)
Fixpoint scan_digits (after_underscore : bool) (digits : Z) (acc : Z)
    (s : string) : option (Z * Z * string) :=
  match s with
  | String c r =>
      match digit_val c with
      | Some d => scan_digits false (digits + 1) (10 * acc + d) r
      | None =>
          if Ascii.eqb c "_" then
            if after_underscore then None else scan_digits true digits acc r
          else if after_underscore then None else Some (digits, acc, s)
      end
  | EmptyString => if after_underscore then None else Some (digits, acc, s)
  end.

(** What [int(s)] does: a number, the [ValueError] of an invalid literal,
    or the [ValueError] of a literal with too many digits. *)
Inductive int_result :=
| Int (n : Z)
| InvalidLiteral
| TooManyDigits (digits : Z).

Definition int_unsigned (negative : bool) (s : string) : int_result :=
  if prefix_b "_" s then InvalidLiteral
  else
    match scan_digits false 0 0 s with
    | None => InvalidLiteral
    | Some (digits, value, rest) =>
        if max_str_digits <? digits then TooManyDigits digits
        else if digits =? 0 then InvalidLiteral
        else if all_space rest then Int (if negative then - value else value)
        else InvalidLiteral
    end.

Definition int_literal (s : string) : int_result :=
  match lstrip_space s with
  | String c r =>
      if Ascii.eqb c "-" then int_unsigned true r
      else if Ascii.eqb c "+" then int_unsigned false r
      else int_unsigned false (String c r)
  | EmptyString => InvalidLiteral
  end.

(** [int(s)]; [None] stands for [ValueError]. *)
Definition int (s : string) : option Z :=
  match int_literal s with
  | Int n => Some n
  | _ => None
  end.

(** *** [repr(s)] *)

Definition hex_digit (n : nat) : ascii :=
  if (n <? 10)%nat then ascii_of_nat (48 + n) else ascii_of_nat (87 + n).

Definition escape_char (quote c : ascii) : string :=
  let n := nat_of_ascii c in
  if Ascii.eqb c quote || Ascii.eqb c "\" then String "\" (String c EmptyString)
  else if (n =? 9)%nat then "\t"
  else if (n =? 10)%nat then "\n"
  else if (n =? 13)%nat then "\r"
  else if (n <? 32)%nat || (n =? 127)%nat then
    "\x" ++ String (hex_digit (n / 16)) (String (hex_digit (n mod 16)) EmptyString)
  else String c EmptyString.

Fixpoint escape (quote : ascii) (s : string) : string :=
  match s with
  | EmptyString => EmptyString
  | String c r => escape_char quote c ++ escape quote r
  end.

Fixpoint has_char (c : ascii) (s : string) : bool :=
  match s with
  | EmptyString => false
  | String a r => Ascii.eqb a c || has_char c r
  end.

(** The double quote character. *)
Definition double_quote : ascii := ascii_of_nat 34.

Definition repr (s : string) : string :=
  let quote : ascii :=
    if has_char "'" s && negb (has_char double_quote s) then double_quote
    else "'"%char in
  String quote (escape quote s ++ String quote EmptyString).

(** The first [n] characters of [s]. *)
Fixpoint take (n : nat) (s : string) : string :=
  match n, s with
  | S k, String c r => String c (take k r)
  | _, _ => EmptyString
  end.

End PyStr.

(** ** [thegraph/models.py] *)

Module ChainInfo.
Record t := {
  chain_id : string;
  name : string;
  native_symbol : string;
  network_name : string
}.
End ChainInfo.

Module NativeBalance.
Record t := {
  chain_id : string;
  chain_name : string;
  balance : string;
  symbol : string;
  price_usd : option string
}.
End NativeBalance.

Module TokenBalance.
Record t := {
  token_address : string;
  token_name : string;
  token_symbol : string;
  token_quantity : string;
  token_divisor : string;
  token_price_usd : string;
  chain_id : option string;
  chain_name : option string
}.
End TokenBalance.

Module TheGraphTokenBalance.
Record t := {
  last_update : string;
  last_update_block_num : Z;
  last_update_timestamp : Z;
  address : string;
  contract : string;
  amount : string;
  value : option spec_float;
  name : string;
  symbol : string;
  decimals : Z;
  network : string
}.
End TheGraphTokenBalance.

Module TheGraphNativeBalance.
Record t := {
  address : string;
  amount : string;
  balance : option string;
  network : string;
  contract : option string;
  symbol : option string;
  name : option string;
  decimals : option Z;
  value : option spec_float;
  last_update : option string;
  last_update_block_num : option Z;
  last_update_timestamp : option Z
}.
End TheGraphNativeBalance.

(** ** [thegraph/utils.py]: the chain registry *)

Definition SUPPORTED_CHAINS : gmap string ChainInfo.t :=
  list_to_map [
    ("1", {| ChainInfo.chain_id := "1"; ChainInfo.name := "Ethereum";
             ChainInfo.native_symbol := "ETH"; ChainInfo.network_name := "mainnet" |});
    ("137", {| ChainInfo.chain_id := "137"; ChainInfo.name := "Polygon";
               ChainInfo.native_symbol := "MATIC"; ChainInfo.network_name := "polygon" |});
    ("8453", {| ChainInfo.chain_id := "8453"; ChainInfo.name := "Base";
                ChainInfo.native_symbol := "ETH"; ChainInfo.network_name := "base" |});
    ("42161", {| ChainInfo.chain_id := "42161"; ChainInfo.name := "Arbitrum";
                 ChainInfo.native_symbol := "ETH"; ChainInfo.network_name := "arbitrum-one" |});
    ("10", {| ChainInfo.chain_id := "10"; ChainInfo.name := "Optimism";
              ChainInfo.native_symbol := "ETH"; ChainInfo.network_name := "optimism" |});
    ("56", {| ChainInfo.chain_id := "56"; ChainInfo.name := "BSC";
              ChainInfo.native_symbol := "BNB"; ChainInfo.network_name := "bsc" |});
    ("43114", {| ChainInfo.chain_id := "43114"; ChainInfo.name := "Avalanche";
                 ChainInfo.native_symbol := "AVAX"; ChainInfo.network_name := "avalanche" |})
  ].

Definition NETWORK_NAME_TO_CHAIN_ID : gmap string string :=
  list_to_map [
    ("ethereum", "1"); ("polygon", "137"); ("base", "8453");
    ("arbitrum", "42161"); ("optimism", "10"); ("bsc", "56");
    ("avalanche", "43114")
  ].

Definition get_chain_info (network : string) : option ChainInfo.t :=
  let network_lower := PyStr.lower network in
  match SUPPORTED_CHAINS !! network_lower with
  | Some info => Some info
  | None =>
      match NETWORK_NAME_TO_CHAIN_ID !! network_lower with
      | Some chain_id => SUPPORTED_CHAINS !! chain_id
      | None => None
      end
  end.


(** ** Exceptions and Python values *)

Inductive exn :=
| ValueError (msg : string)
| ZeroDivisionError (msg : string)
| TypeError (msg : string)
| AttributeError (msg : string)
| KeyError (msg : string)
| IndexError (msg : string)
| UnboundLocalError (msg : string)
| OverflowError (msg : string)
| ValidationError (msg : string)      (* pydantic *)
| JSONDecodeError (msg : string)      (* a subclass of ValueError *)
| TimeoutException (msg : string)     (* httpx *)
| ConnectError (msg : string)         (* httpx, a NetworkError *)
| NetworkError (msg : string)         (* httpx *)
| HTTPStatusError (status : Z) (msg : string)
| OtherException (msg : string).

(** [str(e)] *)
Definition exn_str (e : exn) : string :=
  match e with
  | ValueError m | ZeroDivisionError m | TypeError m | AttributeError m
  | KeyError m | IndexError m | UnboundLocalError m | OverflowError m
  | ValidationError m | JSONDecodeError m | TimeoutException m
  | ConnectError m | NetworkError m | HTTPStatusError _ m
  | OtherException m => m
  end.

(** [isinstance(e, ValueError)] *)
Definition is_ValueError (e : exn) : bool :=
  match e with
  | ValueError _ | JSONDecodeError _ | ValidationError _ => true
  | _ => false
  end.

Definition is_ZeroDivisionError (e : exn) : bool :=
  match e with ZeroDivisionError _ => true | _ => false end.

(** [isinstance(e, (httpx.TimeoutException, httpx.ConnectError,
    httpx.NetworkError))] *)
Definition is_network_failure (e : exn) : bool :=
  match e with
  | TimeoutException _ | ConnectError _ | NetworkError _ => true
  | _ => false
  end.

#[local] Set Warnings "-register-all".
Inductive pyval :=
| PNone
| PBool (b : bool)
| PInt (n : Z)
| PFloat (f : spec_float)
| PStr (s : string)
| PList (l : list pyval)
| PDict (d : list (string * pyval)).

(** A [dict] with string keys, in insertion order. *)
Abbreviation dict := (list (string * pyval)).

Module Dict.

Fixpoint get (k : string) (d : dict) : option pyval :=
  match d with
  | [] => None
  | (k', v) :: r => if String.eqb k k' then Some v else get k r
  end.

(** [k in d] *)
Definition mem (k : string) (d : dict) : bool :=
  match get k d with Some _ => true | None => false end.

(** [d.get(k, default)] *)
Definition get_default (k : string) (default : pyval) (d : dict) : pyval :=
  match get k d with Some v => v | None => default end.

(** [d[k] = v] *)
Fixpoint set (k : string) (v : pyval) (d : dict) : dict :=
  match d with
  | [] => [(k, v)]
  | (k', v') :: r =>
      if String.eqb k k' then (k, v) :: r else (k', v') :: set k v r
  end.

End Dict.

(** Operations of the interpreter and of the libraries that the embedding
    leaves open: [float()] of a value, the amounts
    rendered for one token by float arithmetic ([balance_str] and
    [usd_value_str], from the item's [decimals], [amount] and [value]),
    [str] of a float, a negative power of ten, and the pydantic validation
    of a JSON body into the [data] list of a [TheGraphNativeResponse] or of
    a [TheGraphTokenResponse]. *)
Class PyRuntime := {
  py_float : pyval -> exn + spec_float;
  render_amounts : pyval -> pyval -> pyval -> exn + (string * string);
  float_str : spec_float -> string;
  pow10_neg : Z -> spec_float;
  validate_native : pyval -> exn + list TheGraphNativeBalance.t;
  validate_tokens : pyval -> exn + list TheGraphTokenBalance.t
}.

Module Py.

Definition type_name (v : pyval) : string :=
  match v with
  | PNone => "NoneType" | PBool _ => "bool" | PInt _ => "int"
  | PFloat _ => "float" | PStr _ => "str" | PList _ => "list"
  | PDict _ => "dict"
  end.

(** Truth value of an object. *)
Definition truthy (v : pyval) : bool :=
  match v with
  | PNone => false
  | PBool b => b
  | PInt n => negb (n =? 0)
  | PFloat f => match f with S754_zero _ => false | _ => true end
  | PStr s => PyStr.truthy s
  | PList l => match l with [] => false | _ => true end
  | PDict d => match d with [] => false | _ => true end
  end.

(** [v == s] for a string literal [s] *)
Definition eq_str (v : pyval) (s : string) : bool :=
  match v with PStr t => String.eqb t s | _ => false end.

(** [a or b] *)
Definition or_ (a b : pyval) : pyval := if truthy a then a else b.

Definition no_attribute (v : pyval) (attr : string) : exn :=
  AttributeError ("'" ++ type_name v ++ "' object has no attribute '" ++ attr ++ "'").

(** [v.get(k)] and [v.get(k, default)] *)
Definition get (v : pyval) (k : string) (default : pyval) : exn + pyval :=
  match v with
  | PDict d => inr (Dict.get_default k default d)
  | _ => inl (no_attribute v "get")
  end.

Fixpoint chars (s : string) : list pyval :=
  match s with
  | EmptyString => []
  | String c r => PStr (String c EmptyString) :: chars r
  end.

(** [len(v)] *)
Definition len (v : pyval) : exn + Z :=
  match v with
  | PStr s => inr (PyStr.len s)
  | PList l => inr (Z.of_nat (length l))
  | PDict d => inr (Z.of_nat (length d))
  | _ => inl (TypeError ("object of type '" ++ type_name v ++ "' has no len()"))
  end.

(** The items visited by [for x in v]. *)
Definition iter (v : pyval) : exn + list pyval :=
  match v with
  | PStr s => inr (chars s)
  | PList l => inr l
  | PDict d => inr (map (fun kv => PStr kv.1) d)
  | _ => inl (TypeError ("'" ++ type_name v ++ "' object is not iterable"))
  end.

(** [v[0]] *)
Definition first (v : pyval) : exn + pyval :=
  match v with
  | PList (x :: _) => inr x
  | PList [] => inl (IndexError "list index out of range")
  | PStr (String c _) => inr (PStr (String c EmptyString))
  | PStr EmptyString => inl (IndexError "string index out of range")
  | PDict _ => inl (KeyError "0")
  | _ => inl (TypeError ("'" ++ type_name v ++ "' object is not subscriptable"))
  end.

(** [v[k]] for a string key *)
Definition item (v : pyval) (k : string) : exn + pyval :=
  match v with
  | PDict d =>
      match Dict.get k d with
      | Some x => inr x
      | None => inl (KeyError ("'" ++ k ++ "'"))
      end
  | PStr _ => inl (TypeError "string indices must be integers, not 'str'")
  | PList _ => inl (TypeError "list indices must be integers or slices, not str")
  | _ => inl (TypeError ("'" ++ type_name v ++ "' object is not subscriptable"))
  end.

(** [v.upper()] *)
Definition upper (v : pyval) : exn + string :=
  match v with
  | PStr s => inr (PyStr.upper s)
  | _ => inl (no_attribute v "upper")
  end.

(** [int(s)] for a string; the message of an invalid literal shows at most
    200 characters of [repr(s)]. *)
Definition int (s : string) : exn + Z :=
  match PyStr.int_literal s with
  | PyStr.Int n => inr n
  | PyStr.InvalidLiteral =>
      inl (ValueError ("invalid literal for int() with base 10: " ++
                       PyStr.take 200 (PyStr.repr s)))
  | PyStr.TooManyDigits digits =>
      inl (ValueError
             ("Exceeds the limit (" ++ PyStr.str PyStr.max_str_digits ++
              " digits) for integer string conversion: value has " ++
              PyStr.str digits ++
              " digits; use sys.set_int_max_str_digits() to increase the limit"))
  end.

(** [str(n)] for an [int], and [n] in an f-string: an integer of more than
    [max_str_digits] digits is refused. *)
Definition str (n : Z) : exn + string :=
  if PyStr.max_str_digits <? PyStr.len (PyStr.str (Z.abs n)) then
    inl (ValueError
           ("Exceeds the limit (" ++ PyStr.str PyStr.max_str_digits ++
            " digits) for integer string conversion; " ++
            "use sys.set_int_max_str_digits() to increase the limit"))
  else inr (PyStr.str n).

End Py.

(** ** Python floats: binary64 arithmetic and the format specifications
    [.Nf], [,.Nf] and [.2e] *)

Module PyFloat.

Definition prec : Z := 53.
Definition emax : Z := 1024.

(** The float nearest to an integer, as a literal such as [1e18] or the
    conversion [float(n)] gives it. *)
Definition of_Z (n : Z) : spec_float := binary_normalize prec emax n 0 false.

Definition div : spec_float -> spec_float -> spec_float := SFdiv prec emax.
Definition mul : spec_float -> spec_float -> spec_float := SFmul prec emax.
Definition ltb : spec_float -> spec_float -> bool := SFltb.
Definition leb : spec_float -> spec_float -> bool := SFleb.
Definition eqb : spec_float -> spec_float -> bool := SFeqb.
Definition abs : spec_float -> spec_float := SFabs.

(** The literal [1e-k]: the float nearest to [1 / 10^k]. *)
Definition lit_neg_pow10 (k : Z) : spec_float := div (of_Z 1) (of_Z (10 ^ k)).

(** [num / den] rounded to the nearest integer, ties to even
    ([0 <= num], [0 < den]). *)
Definition round_half_even (num den : Z) : Z :=
  let q := num / den in
  let r := num mod den in
  match 2 * r ?= den with
  | Lt => q
  | Gt => q + 1
  | Eq => if Z.even q then q else q + 1
  end.

(** [m * 2^e * 10^k] rounded to an integer. *)
Definition scaled (m : positive) (e k : Z) : Z :=
  if 0 <=? e then Z.pos m * 2 ^ e * 10 ^ k
  else round_half_even (Z.pos m * 10 ^ k) (2 ^ (- e)).

(** Thousands separators of the [,] option, on a string of digits. *)
Fixpoint group_from (n : nat) (s : string) : string :=
  match s with
  | EmptyString => EmptyString
  | String c r =>
      match n with
      | O => "," ++ String c (group_from 2 r)
      | S k => String c (group_from k r)
      end
  end.

Definition group (digits : string) : string :=
  let n := String.length digits in
  match n with
  | O => digits
  | S _ => group_from (S ((n - 1) mod 3)) digits
  end.

Definition sign_str (s : bool) : string := if s then "-" else "".

(** [f"{x:.{nd}f}"], and [f"{x:,.{nd}f}"] when [comma] is set
    ([0 < nd]). *)
Definition format_f (nd : Z) (comma : bool) (x : spec_float) : string :=
  let render n :=
    let ip := PyStr.str (n / 10 ^ nd) in
    (if comma then group ip else ip) ++ "." ++
    PyStr.zfill (PyStr.str (n mod 10 ^ nd)) nd in
  match x with
  | S754_nan => "nan"
  | S754_infinity s => sign_str s ++ "inf"
  | S754_zero s => sign_str s ++ render 0
  | S754_finite s m e => sign_str s ++ render (scaled m e nd)
  end.

(** The decimal exponent [x] of a positive rational: [10^x <= num/den <
    10^(x+1)]. *)
Fixpoint neg_exponent (fuel : nat) (num den : Z) (k : Z) : Z :=
  match fuel with
  | O => k
  | S f => if den <=? num * 10 ^ k then k else neg_exponent f num den (k + 1)
  end.

Definition exponent10 (num den : Z) : Z :=
  if den <=? num then PyStr.len (PyStr.str (num / den)) - 1
  else - neg_exponent 400 num den 1.

(** [f"{x:.2e}"] *)
Definition format_e2 (x : spec_float) : string :=
  let render (n x10 : Z) :=
    PyStr.str (n / 100) ++ "." ++ PyStr.zfill (PyStr.str (n mod 100)) 2 ++
    "e" ++ (if x10 <? 0 then "-" else "+") ++
    PyStr.zfill (PyStr.str (Z.abs x10)) 2 in
  match x with
  | S754_nan => "nan"
  | S754_infinity s => sign_str s ++ "inf"
  | S754_zero s => sign_str s ++ render 0 0
  | S754_finite s m e =>
      let num := if 0 <=? e then Z.pos m * 2 ^ e else Z.pos m in
      let den := if 0 <=? e then 1 else 2 ^ (- e) in
      let x10 := exponent10 num den in
      let n :=
        if 2 <=? x10 then round_half_even num (den * 10 ^ (x10 - 2))
        else round_half_even (num * 10 ^ (2 - x10)) den in
      sign_str s ++ (if n =? 1000 then render 100 (x10 + 1) else render n x10)
  end.

End PyFloat.

(** ** [thegraph/utils.py]: the numeric formatter *)

(** The body of the [try] block of [format_token_balance]. *)
Definition format_token_balance_body (quantity divisor : string) : exn + string :=
  match Py.int quantity with
  | inl e => inl e
  | inr quantity_int =>
      match Py.int divisor with
      | inl e => inl e
      | inr divisor_int =>
          if divisor_int =? 0 then Py.str quantity_int
          else
            let whole_part := quantity_int / divisor_int in
            let fractional_part := quantity_int mod divisor_int in
            if fractional_part =? 0 then Py.str whole_part
            else
              match Py.str fractional_part with
              | inl e => inl e
              | inr fractional_digits =>
                  match Py.str divisor_int with
                  | inl e => inl e
                  | inr divisor_digits =>
                      let fractional_str :=
                        PyStr.zfill fractional_digits
                          (PyStr.len divisor_digits - 1) in
                      let fractional_str := PyStr.rstrip "0" fractional_str in
                      if PyStr.truthy fractional_str
                      then
                        match Py.str whole_part with
                        | inl e => inl e
                        | inr whole_digits =>
                            inr (whole_digits ++ "." ++ fractional_str)
                        end
                      else Py.str whole_part
                  end
              end
      end
  end.

Definition format_token_balance (quantity divisor : string) : exn + string :=
  if negb (PyStr.truthy quantity) || String.eqb quantity "0" then inr "0"
  else
    match format_token_balance_body quantity divisor with
    | inl e =>
        if is_ValueError e || is_ZeroDivisionError e
        then inr ("Error formatting balance: " ++ exn_str e)
        else inl e
    | inr s => inr s
    end.

(** [format_usd_value]; the argument is a [float], so the [isinstance]
    test holds. *)
Definition format_usd_value (value : spec_float) : string :=
  if negb (PyFloat.eqb value value) then "$0.00"
  else if PyFloat.eqb value (PyFloat.of_Z 0) then "$0.00"
  else
    let abs_value := PyFloat.abs value in
    let sign := if PyFloat.ltb value (PyFloat.of_Z 0) then "-" else "" in
    let scaled_by d := PyFloat.div abs_value (PyFloat.of_Z d) in
    if PyFloat.ltb abs_value (PyFloat.lit_neg_pow10 6)
    then sign ++ "$" ++ PyFloat.format_e2 value
    else if PyFloat.ltb abs_value (PyFloat.lit_neg_pow10 2)
    then sign ++ "$" ++ PyFloat.format_f 6 false value
    else if PyFloat.leb (PyFloat.of_Z (10 ^ 18)) abs_value
    then sign ++ "$" ++ PyFloat.format_f 2 true (scaled_by (10 ^ 18)) ++ "Qi"
    else if PyFloat.leb (PyFloat.of_Z (10 ^ 15)) abs_value
    then sign ++ "$" ++ PyFloat.format_f 2 true (scaled_by (10 ^ 15)) ++ "Qa"
    else if PyFloat.leb (PyFloat.of_Z (10 ^ 12)) abs_value
    then sign ++ "$" ++ PyFloat.format_f 2 true (scaled_by (10 ^ 12)) ++ "T"
    else if PyFloat.leb (PyFloat.of_Z (10 ^ 9)) abs_value
    then sign ++ "$" ++ PyFloat.format_f 2 true (scaled_by (10 ^ 9)) ++ "B"
    else if PyFloat.leb (PyFloat.of_Z (10 ^ 6)) abs_value
    then sign ++ "$" ++ PyFloat.format_f 2 true (scaled_by (10 ^ 6)) ++ "M"
    else if PyFloat.leb (PyFloat.of_Z (10 ^ 3)) abs_value
    then sign ++ "$" ++ PyFloat.format_f 2 true (scaled_by (10 ^ 3)) ++ "K"
    else sign ++ "$" ++ PyFloat.format_f 2 true value.

(** ** The outside world: HTTP requests, the environment, the clock *)

Record request := {
  req_url : string;
  req_network : string;
  req_address : string;
  req_limit : Z;                       (* sent as [str(limit)] *)
  req_page : Z;                        (* sent as [str(page)] *)
  req_include_null_balances : bool;    (* sent as ["true"] or ["false"] *)
  req_bearer : string;                 (* [Authorization: Bearer ...] *)
  req_timeout : Z                      (* seconds *)
}.

Record response := {
  status_code : Z;
  json : exn + pyval                   (* [response.json()] *)
}.

(** What a call leaves behind: the pauses (in milliseconds) and the requests
    sent, oldest first. *)
Inductive event :=
| Sleep (ms : Z)
| Send (r : request).

(** The upstream service answers the [n]-th request of a run with a
    response, or the transport raises; [environ] is [os.environ]. *)
Class Environment := {
  upstream : nat -> request -> exn + response;
  environ : gmap string string
}.

Record world := {
  sent : nat;
  trace : list event
}.

Definition world0 : world := {| sent := 0; trace := [] |}.

Inductive outcome (A : Type) :=
| Ret (a : A)
| Exc (e : exn)
| OutOfFuel.
Arguments Ret {A} a.
Arguments Exc {A} e.
Arguments OutOfFuel {A}.

(** A computation with local variables of type [L]. *)
Definition M (L A : Type) : Type := L -> world -> outcome A * L * world.

Module Eff.

Definition ret {L A} (a : A) : M L A := fun l w => (Ret a, l, w).
Definition raise {L A} (e : exn) : M L A := fun l w => (Exc e, l, w).
Definition diverge {L A} : M L A := fun l w => (OutOfFuel, l, w).

Definition bind {L A B} (m : M L A) (k : A -> M L B) : M L B :=
  fun l w =>
    match m l w with
    | (Ret a, l', w') => k a l' w'
    | (Exc e, l', w') => (Exc e, l', w')
    | (OutOfFuel, l', w') => (OutOfFuel, l', w')
    end.

(** [try: m  except Exception as e: h e] *)
Definition try_ {L A} (m : M L A) (h : exn -> M L A) : M L A :=
  fun l w =>
    match m l w with
    | (Exc e, l', w') => h e l' w'
    | r => r
    end.

Definition lift {L A} (r : exn + A) : M L A :=
  match r with inl e => raise e | inr a => ret a end.

Definition locals {L} : M L L := fun l w => (Ret l, l, w).
Definition assign {L} (f : L -> L) : M L unit := fun l w => (Ret tt, f l, w).

(** A call of another function: it runs on its own local variables. *)
Definition call {L L' A} (init : L') (m : M L' A) : M L A :=
  fun l w => let '(r, _, w') := m init w in (r, l, w').

(** [await asyncio.sleep(ms / 1000)] *)
Definition sleep {L} (ms : Z) : M L unit :=
  fun l w => (Ret tt, l, {| sent := sent w; trace := trace w ++ [Sleep ms] |}).

(** [await client.get(url, params=..., headers=...)] *)
Definition http_get `{Environment} {L} (r : request) : M L response :=
  fun l w =>
    let w' := {| sent := S (sent w); trace := trace w ++ [Send r] |} in
    match upstream (sent w) r with
    | inl e => (Exc e, l, w')
    | inr resp => (Ret resp, l, w')
    end.

(** [os.getenv(name)] *)
Definition getenv `{Environment} (name : string) : option string :=
  environ !! name.

(** [response.raise_for_status()] *)
Definition raise_for_status {L} (r : response) : M L unit :=
  if (200 <=? status_code r) && (status_code r <=? 299) then ret tt
  else raise (HTTPStatusError (status_code r) "").

Inductive ctl (R : Type) :=
| Next                (* the end of the body, or [continue] *)
| Break
| Return (r : R).
Arguments Next {R}.
Arguments Break {R}.
Arguments Return {R} r.

(** [while cond: body]; the result is [Some r] when the body returned [r]
    and [None] when the loop was left. *)
Fixpoint while {L R} (fuel : nat) (cond : L -> bool) (body : M L (ctl R))
    : M L (option R) :=
  match fuel with
  | O => diverge
  | S f =>
      bind locals (fun l =>
      if cond l then
        bind body (fun c =>
        match c with
        | Next => while f cond body
        | Break => ret None
        | Return r => ret (Some r)
        end)
      else ret None)
  end.

(** [for x in xs: body x], without [break] or [continue]. *)
Fixpoint for_each {L A} (xs : list A) (body : A -> M L unit) : M L unit :=
  match xs with
  | [] => ret tt
  | x :: r => bind (body x) (fun _ => for_each r body)
  end.

End Eff.

Notation "'let*' x := m 'in' k" := (Eff.bind m (fun x => k))
  (at level 10, x name, m at level 100, k at level 200).
Notation "'do' m 'then' k" := (Eff.bind m (fun _ => k))
  (at level 10, m at level 100, k at level 200).

(** Truth value of an [Optional[str]]. *)
Definition opt_truthy (o : option string) : bool :=
  match o with Some s => PyStr.truthy s | None => false end.

(** [a or b] on [Optional[str]] *)
Definition opt_or (a b : option string) : option string :=
  if opt_truthy a then a else b.

Definition BALANCES_URL : string := "https://token-api.thegraph.com/v1/evm/balances".

(** Local variables of the pagination loops. *)
Record paging (T : Type) := {
  all_tokens : list T;
  page : Z
}.
Arguments all_tokens {T} p.
Arguments page {T} p.

Definition append_token {T} (t : T) (l : paging T) : paging T :=
  {| all_tokens := all_tokens l ++ [t]; page := page l |}.

Definition next_page {T} (l : paging T) : paging T :=
  {| all_tokens := all_tokens l; page := page l + 1 |}.

(** The dictionaries that the per-network functions return. *)

(** [{"error": ..., "token_type": "native", ...}] without chain fields *)
Definition native_failure (error symbol : string) : pyval :=
  PDict [("error", PStr error); ("token_type", PStr "native");
         ("token_symbol", PStr symbol); ("token_address", PStr "0x0");
         ("balance", PStr "0"); ("balance_raw", PStr "0");
         ("decimals", PInt 18)].

(** [{"token_type": "native", ..., "error": None}] *)
Definition native_record (symbol : string) (balance balance_raw : pyval)
    (chain_name chain_id : string) : pyval :=
  PDict [("token_type", PStr "native"); ("token_symbol", PStr symbol);
         ("token_address", PStr "0x0"); ("balance", balance);
         ("balance_raw", balance_raw); ("decimals", PInt 18);
         ("chain_name", PStr chain_name); ("chain_id", PStr chain_id);
         ("error", PNone)].

(** [{"tokens": ..., "error": ...}] *)
Definition tokens_result (tokens : list pyval) (error : pyval) : pyval :=
  PDict [("tokens", PList tokens); ("error", error)].

Section Clients.
Context `{PyRuntime} `{Environment}.

(** The dictionary appended for one item of a page
    (the body of [for balance in data["data"]]). *)
Definition token_data (chain_name chain_id : string) (balance : pyval)
    : exn + pyval :=
  match balance with
  | PDict b =>
      let decimals := Dict.get_default "decimals" (PInt 18) b in
      let balance_raw := Dict.get_default "amount" (PStr "0") b in
      match render_amounts decimals balance_raw
              (Dict.get_default "value" (PInt 0) b) with
      | inl e => inl e
      | inr (balance_str, usd_value_str) =>
          inr (PDict [
            ("token_type", PStr "ERC20");
            ("token_symbol", Dict.get_default "symbol" (PStr "UNKNOWN") b);
            ("token_address", Dict.get_default "contract" (PStr "") b);
            ("token_name", Dict.get_default "name" (PStr "Unknown") b);
            ("balance", PStr balance_str);
            ("balance_raw", balance_raw);
            ("decimals", decimals);
            ("usd_value", PStr usd_value_str);
            ("chain_name", PStr chain_name);
            ("chain_id", PStr chain_id);
            ("error", PNone)])
      end
  | _ => inl (Py.no_attribute balance "get")
  end.

(** [f"{balance_eth:.18f}".rstrip("0").rstrip(".")] *)
Definition native_balance_str (balance_eth : spec_float) : string :=
  PyStr.rstrip "." (PyStr.rstrip "0" (PyFloat.format_f 18 false balance_eth)).

(** *** [thegraph/balance/balance_client.py] *)

Definition get_native_balance_thegraph (account_address network : string)
    (api_key : option string) : M unit pyval :=
  let api_key :=
    if negb (opt_truthy api_key) then Eff.getenv "THEGRAPH_API_KEY" else api_key in
  if negb (opt_truthy api_key)
  then Eff.ret (native_failure "THEGRAPH_API_KEY environment variable is not set" "ETH")
  else
    match get_chain_info network with
    | None => Eff.ret (native_failure ("Unsupported network: " ++ network) "ETH")
    | Some chain_info =>
        (* The assignment of [query_params] is indented under the
           [if not chain_info:] block, after its [return]: on this path
           the variable is never bound. *)
        let query_params : option request := None in
        let symbol := ChainInfo.native_symbol chain_info in
        Eff.try_
          (let* params :=
             match query_params with
             | Some q => Eff.ret q
             | None =>
                 Eff.raise (UnboundLocalError
                   "cannot access local variable 'query_params' where it is not associated with a value")
             end in
           let* response := Eff.http_get params in
           if status_code response =? 401 then
             Eff.ret (native_failure
               "The Graph API authentication failed. Please check your API key." symbol)
           else if status_code response =? 403 then
             Eff.ret (native_failure
               "The Graph API access forbidden. Please check your API key permissions." symbol)
           else if status_code response =? 429 then
             Eff.ret (native_failure
               "The Graph API rate limit exceeded. Please wait and try again." symbol)
           else
             do Eff.raise_for_status response then
             let* data := Eff.lift (json response) in
             let* d := Eff.lift (Py.get data "data" PNone) in
             let* nonempty :=
               if Py.truthy d then
                 let* d' := Eff.lift (Py.item data "data") in
                 let* n := Eff.lift (Py.len d') in
                 Eff.ret (0 <? n)
               else Eff.ret false in
             if nonempty : bool then
               let* d' := Eff.lift (Py.item data "data") in
               let* native_balance := Eff.lift (Py.first d') in
               let* amount := Eff.lift (Py.get native_balance "amount" PNone) in
               let* balance_wei :=
                 if Py.truthy amount then Eff.ret amount
                 else Eff.lift (Py.get native_balance "balance" (PStr "0")) in
               if Py.eq_str balance_wei "0" then
                 Eff.ret (native_record symbol (PStr "0") (PStr "0")
                            (ChainInfo.name chain_info) (ChainInfo.chain_id chain_info))
               else
                 let* f := Eff.lift (py_float balance_wei) in
                 let balance_eth := PyFloat.div f (PyFloat.of_Z (10 ^ 18)) in
                 let balance_str := native_balance_str balance_eth in
                 Eff.ret (native_record symbol (PStr balance_str) balance_wei
                            (ChainInfo.name chain_info) (ChainInfo.chain_id chain_info))
             else
               Eff.ret (native_record symbol (PStr "0") (PStr "0")
                          (ChainInfo.name chain_info) (ChainInfo.chain_id chain_info)))
          (fun e =>
             match e with
             | HTTPStatusError code _ =>
                 Eff.ret (native_failure ("HTTP error! status: " ++ PyStr.str code) symbol)
             | _ =>
                 Eff.ret (native_failure
                   ("Error fetching native balance: " ++ exn_str e) symbol)
             end)
    end.

(** The body of [while True:] in [get_all_token_balances_thegraph]. *)
Definition thegraph_page (chain_info : ChainInfo.t)
    (account_address api_key : string) : M (paging pyval) (Eff.ctl pyval) :=
  let limit := 10 in
  Eff.try_
    (do Eff.sleep 200 then
     let* l := Eff.locals in
     let query_params :=
       {| req_url := BALANCES_URL;
          req_network := ChainInfo.network_name chain_info;
          req_address := account_address;
          req_limit := limit;
          req_page := page l;
          req_include_null_balances := false;
          req_bearer := api_key;
          req_timeout := 30 |} in
     let* response := Eff.http_get query_params in
     if status_code response =? 401 then
       Eff.ret (Eff.Return (tokens_result []
         (PStr "The Graph API authentication failed. Please check your API key.")))
     else if status_code response =? 403 then
       Eff.ret (Eff.Return (tokens_result []
         (PStr "The Graph API access forbidden. Please check your API key permissions.")))
     else if status_code response =? 429 then
       do Eff.sleep 5000 then Eff.ret Eff.Next
     else
       do Eff.raise_for_status response then
       let* data := Eff.lift (json response) in
       let* d := Eff.lift (Py.get data "data" PNone) in
       if negb (Py.truthy d) then Eff.ret Eff.Break
       else
         let* d' := Eff.lift (Py.item data "data") in
         let* items := Eff.lift (Py.iter d') in
         do Eff.for_each items (fun balance =>
              let* t := Eff.lift (token_data (ChainInfo.name chain_info)
                                    (ChainInfo.chain_id chain_info) balance) in
              Eff.assign (append_token t)) then
         let* n := Eff.lift (Py.len d') in
         if n <? limit then Eff.ret Eff.Break
         else do Eff.assign next_page then Eff.ret Eff.Next)
    (fun e =>
       let* l := Eff.locals in
       match e with
       | HTTPStatusError code _ =>
           Eff.ret (Eff.Return (tokens_result (all_tokens l)
             (PStr ("HTTP error! status: " ++ PyStr.str code))))
       | _ =>
           Eff.ret (Eff.Return (tokens_result (all_tokens l)
             (PStr ("Error fetching token balances: " ++ exn_str e))))
       end).

Definition get_all_token_balances_thegraph (fuel : nat)
    (account_address network : string) (api_key : option string)
    : M unit pyval :=
  let api_key :=
    if negb (opt_truthy api_key) then Eff.getenv "THEGRAPH_API_KEY" else api_key in
  if negb (opt_truthy api_key)
  then Eff.ret (tokens_result []
         (PStr "THEGRAPH_API_KEY environment variable is not set"))
  else
    match get_chain_info network with
    | None => Eff.ret (tokens_result [] (PStr ("Unsupported network: " ++ network)))
    | Some chain_info =>
        Eff.call {| all_tokens := []; page := 1 |}
          (let* r := Eff.while fuel (fun _ => true)
                       (thegraph_page chain_info account_address (default "" api_key)) in
           match r with
           | Some v => Eff.ret v
           | None =>
               let* l := Eff.locals in
               Eff.ret (tokens_result (all_tokens l) PNone)
           end)
    end.

(** [{"error": ..., "token_type": "ERC20", ...}] of
    [get_token_balance_thegraph] *)
Definition token_failure (error token_symbol : string) : pyval :=
  PDict [("error", PStr error); ("token_type", PStr "ERC20");
         ("token_symbol", PStr (PyStr.upper token_symbol));
         ("token_address", PStr ""); ("balance", PStr "0");
         ("balance_raw", PStr "0"); ("decimals", PInt 18)].

(** [for token in tokens: if token.get("token_symbol", "").upper() ==
    token_symbol_upper: return token] *)
Fixpoint find_token (token_symbol_upper : string) (tokens : list pyval)
    : exn + option pyval :=
  match tokens with
  | [] => inr None
  | token :: rest =>
      match Py.get token "token_symbol" (PStr "") with
      | inl e => inl e
      | inr sym =>
          match Py.upper sym with
          | inl e => inl e
          | inr u =>
              if String.eqb u token_symbol_upper then inr (Some token)
              else find_token token_symbol_upper rest
          end
      end
  end.

(** [k in v] for a string key of a dictionary *)
Definition key_in (k : string) (v : pyval) : exn + bool :=
  match v with
  | PDict d => inr (Dict.mem k d)
  | PStr s => inr (PyStr.contains k s)
  | PList l => inr (existsb (fun x => Py.eq_str x k) l)
  | _ => inl (TypeError ("argument of type '" ++ Py.type_name v ++ "' is not iterable"))
  end.

Definition get_token_balance_thegraph (fuel : nat)
    (account_address token_symbol network : string) (api_key : option string)
    : M unit pyval :=
  let api_key :=
    if negb (opt_truthy api_key) then Eff.getenv "THEGRAPH_API_KEY" else api_key in
  if negb (opt_truthy api_key)
  then Eff.ret (token_failure "THEGRAPH_API_KEY environment variable is not set"
                  token_symbol)
  else
    match get_chain_info network with
    | None => Eff.ret (token_failure ("Unsupported network: " ++ network) token_symbol)
    | Some chain_info =>
        let* all_tokens :=
          get_all_token_balances_thegraph fuel account_address network api_key in
        let* has_error := Eff.lift (key_in "error" all_tokens) in
        if has_error : bool then Eff.ret all_tokens
        else
          let token_symbol_upper := PyStr.upper token_symbol in
          let* tokens := Eff.lift (Py.get all_tokens "tokens" (PList [])) in
          let* items := Eff.lift (Py.iter tokens) in
          let* found := Eff.lift (find_token token_symbol_upper items) in
          match found with
          | Some token => Eff.ret token
          | None =>
              Eff.ret (token_failure
                ("Token " ++ PyStr.upper token_symbol ++ " not found for " ++
                 account_address ++ " on " ++ network) token_symbol)
          end
    end.

(** *** [ethereum/balance/balance_client_thegraph.py]

    The progress lines printed when standard output is a terminal are
    left out: they do not touch the control flow. *)


Definition max_pages : Z := 50.

(** [token_symbols is None or
    token_data["token_symbol"].upper() in [t.upper() for t in token_symbols]] *)
Definition symbol_selected (token_symbols : option (list string)) (t : pyval)
    : exn + bool :=
  match token_symbols with
  | None => inr true
  | Some syms =>
      match Py.item t "token_symbol" with
      | inl e => inl e
      | inr sym =>
          match Py.upper sym with
          | inl e => inl e
          | inr u => inr (existsb (String.eqb u) (map PyStr.upper syms))
          end
      end
  end.

(** The body of [while page <= max_pages:] in
    [get_multiple_token_balances_ethereum_thegraph]. *)
Definition ethereum_page (account_address : string)
    (token_symbols : option (list string)) (api_key : string)
    : M (paging pyval) (Eff.ctl pyval) :=
  let limit := 10 in
  Eff.try_
    (do Eff.sleep 500 then
     let* l := Eff.locals in
     let query_params :=
       {| req_url := BALANCES_URL;
          req_network := "mainnet";
          req_address := account_address;
          req_limit := limit;
          req_page := page l;
          req_include_null_balances := false;
          req_bearer := api_key;
          req_timeout := 15 |} in
     let* got :=
       Eff.try_
         (let* response := Eff.http_get query_params in Eff.ret (inr response))
         (fun e =>
            if is_network_failure e then
              let* l := Eff.locals in
              Eff.ret (inl (tokens_result (all_tokens l)
                (PStr ("Network error during pagination: " ++ exn_str e))))
            else Eff.raise e) in
     match got with
     | inl result => Eff.ret (Eff.Return result)
     | inr response =>
         if status_code response =? 401 then
           Eff.ret (Eff.Return (tokens_result []
             (PStr "The Graph API authentication failed. Please check your API key.")))
         else if status_code response =? 403 then
           Eff.ret (Eff.Return (tokens_result []
             (PStr "The Graph API access forbidden. Please check your API key permissions.")))
         else if status_code response =? 429 then
           do Eff.sleep 10000 then Eff.ret Eff.Next
         else
           do Eff.raise_for_status response then
           let* data := Eff.lift (json response) in
           let* d := Eff.lift (Py.get data "data" PNone) in
           let* empty :=
             if negb (Py.truthy d) then Eff.ret true
             else
               let* d' := Eff.lift (Py.item data "data") in
               let* n := Eff.lift (Py.len d') in
               Eff.ret (n =? 0) in
           if empty : bool then Eff.ret Eff.Break
           else
             let* d' := Eff.lift (Py.item data "data") in
             let* page_tokens := Eff.lift (Py.len d') in
             let* items := Eff.lift (Py.iter d') in
             do Eff.for_each items (fun balance =>
                  let* t := Eff.lift (token_data "Ethereum" "1" balance) in
                  let* keep := Eff.lift (symbol_selected token_symbols t) in
                  if keep : bool then Eff.assign (append_token t) else Eff.ret tt) then
             let* n := Eff.lift (Py.len d') in
             if n <? limit then Eff.ret Eff.Break
             else do Eff.assign next_page then Eff.ret Eff.Next
     end)
    (fun e =>
       let* l := Eff.locals in
       match e with
       | TimeoutException _ =>
           Eff.ret (Eff.Return (tokens_result (all_tokens l)
             (PStr "Request timeout. The API took too long to respond.")))
       | HTTPStatusError code _ =>
           Eff.ret (Eff.Return (tokens_result (all_tokens l)
             (PStr ("HTTP error! status: " ++ PyStr.str code))))
       | _ =>
           Eff.ret (Eff.Return (tokens_result (all_tokens l)
             (PStr ("Error fetching token balances: " ++ exn_str e))))
       end).

Definition get_multiple_token_balances_ethereum_thegraph (fuel : nat)
    (account_address : string) (token_symbols : option (list string))
    (api_key : option string) : M unit pyval :=
  let api_key :=
    if negb (opt_truthy api_key) then Eff.getenv "THEGRAPH_API_KEY" else api_key in
  if negb (opt_truthy api_key)
  then Eff.ret (tokens_result []
         (PStr "THEGRAPH_API_KEY environment variable is not set"))
  else
    Eff.call {| all_tokens := []; page := 1 |}
      (let* r := Eff.while fuel (fun l => page l <=? max_pages)
                   (ethereum_page account_address token_symbols (default "" api_key)) in
       match r with
       | Some v => Eff.ret v
       | None =>
           let* l := Eff.locals in
           if max_pages <? page l then
             Eff.ret (tokens_result (all_tokens l)
               (PStr ("Reached maximum page limit (" ++ PyStr.str max_pages ++
                      "). There may be more tokens. Consider filtering by token_symbols.")))
           else Eff.ret (tokens_result (all_tokens l) PNone)
       end).

(** [{"error": ..., "token_type": "ERC20", ..., "chain_name": "Ethereum",
    "chain_id": "1"}] *)
Definition ethereum_token_failure (error : pyval) (token_symbol : string) : pyval :=
  PDict [("error", error); ("token_type", PStr "ERC20");
         ("token_symbol", PStr (PyStr.upper token_symbol));
         ("token_address", PStr ""); ("balance", PStr "0");
         ("balance_raw", PStr "0"); ("decimals", PInt 18);
         ("chain_name", PStr "Ethereum"); ("chain_id", PStr "1")].

(** [if k not in token: token[k] = v] *)
Definition ensure_field (k : string) (v : pyval) (token : pyval) : pyval :=
  match token with
  | PDict d => if Dict.mem k d then token else PDict (Dict.set k v d)
  | _ => token
  end.

Definition get_token_balance_ethereum_thegraph (fuel : nat)
    (account_address token_symbol : string) (api_key : option string)
    : M unit pyval :=
  let api_key :=
    if negb (opt_truthy api_key) then Eff.getenv "THEGRAPH_API_KEY" else api_key in
  if negb (opt_truthy api_key)
  then Eff.ret (token_failure "THEGRAPH_API_KEY environment variable is not set"
                  token_symbol)
  else
    let* all_tokens :=
      get_multiple_token_balances_ethereum_thegraph fuel account_address None api_key in
    let* has_error := Eff.lift (key_in "error" all_tokens) in
    let* error := if has_error : bool
                  then Eff.lift (Py.get all_tokens "error" PNone)
                  else Eff.ret PNone in
    if has_error && Py.truthy error then
      Eff.ret (ethereum_token_failure error token_symbol)
    else
      let token_symbol_upper := PyStr.upper token_symbol in
      let* tokens := Eff.lift (Py.get all_tokens "tokens" (PList [])) in
      let* items := Eff.lift (Py.iter tokens) in
      let* found := Eff.lift (find_token token_symbol_upper items) in
      match found with
      | Some token =>
          Eff.ret (ensure_field "chain_id" (PStr "1")
                    (ensure_field "chain_name" (PStr "Ethereum")
                      (ensure_field "token_type" (PStr "ERC20") token)))
      | None =>
          Eff.ret (ethereum_token_failure
            (PStr ("Token " ++ PyStr.upper token_symbol ++ " not found for " ++
                   account_address ++ " on Ethereum")) token_symbol)
      end.

End Clients.

(** ** [thegraph/client.py]: the client facade *)

Module TheGraphClient.

Record t := {
  api_key : string;
  client_timeout : Z      (* the [httpx.AsyncClient] of the instance *)
}.

Definition DEFAULT_LIMIT : Z := 10.
Definition REQUEST_DELAY : Z := 200.

Section Methods.
Context `{PyRuntime} `{Environment}.

Definition __init__ (api_key : option string) : M unit t :=
  let key := opt_or api_key (Eff.getenv "THEGRAPH_API_KEY") in
  if negb (opt_truthy key) then
    Eff.raise (ValueError
      "The Graph API key is required. Provide it as parameter or set THEGRAPH_API_KEY environment variable.")
  else
    Eff.ret {| api_key := default "" key; client_timeout := 30 |}.

(** The handlers shared by [get_native_balance] and
    [get_token_balances]. *)
Definition reraise {A} (what : string) (e : exn) : M unit A :=
  match e with
  | HTTPStatusError code _ =>
      if code =? 401 then
        Eff.raise (ValueError
          "The Graph API authentication failed. Please check your API key.")
      else if code =? 403 then
        Eff.raise (ValueError
          "The Graph API access forbidden. Please check your API key permissions.")
      else if code =? 429 then
        Eff.raise (ValueError
          "The Graph API rate limit exceeded. Please wait and try again.")
      else Eff.raise (ValueError ("HTTP error! status: " ++ PyStr.str code))
  | _ => Eff.raise (ValueError (what ++ exn_str e))
  end.


(** The [TokenBalance] built for one item of the response; [str] of the
    divisor raises when it has more than 4300 digits. *)
Definition token_balance (chain_info : ChainInfo.t)
    (balance : TheGraphTokenBalance.t) : exn + TokenBalance.t :=
  let decimals :=
    if TheGraphTokenBalance.decimals balance =? 0 then 18
    else TheGraphTokenBalance.decimals balance in
  match
    (if 0 <=? decimals then Py.str (10 ^ decimals)
     else inr (float_str (pow10_neg decimals)))
  with
  | inl e => inl e
  | inr divisor =>
      inr {| TokenBalance.token_address := TheGraphTokenBalance.contract balance;
             TokenBalance.token_name :=
               if PyStr.truthy (TheGraphTokenBalance.name balance)
               then TheGraphTokenBalance.name balance else "Unknown";
             TokenBalance.token_symbol :=
               if PyStr.truthy (TheGraphTokenBalance.symbol balance)
               then TheGraphTokenBalance.symbol balance else "UNKNOWN";
             TokenBalance.token_quantity := TheGraphTokenBalance.amount balance;
             TokenBalance.token_divisor := divisor;
             TokenBalance.token_price_usd :=
               match TheGraphTokenBalance.value balance with
               | Some v => if Py.truthy (PFloat v) then float_str v else "0"
               | None => "0"
               end;
             TokenBalance.chain_id := Some (ChainInfo.chain_id chain_info);
             TokenBalance.chain_name := Some (ChainInfo.name chain_info) |}
  end.

(** [for balance in data.data: tokens.append(TokenBalance(...))] *)
Fixpoint token_balances (chain_info : ChainInfo.t)
    (data : list TheGraphTokenBalance.t) : exn + list TokenBalance.t :=
  match data with
  | [] => inr []
  | balance :: rest =>
      match token_balance chain_info balance with
      | inl e => inl e
      | inr token =>
          match token_balances chain_info rest with
          | inl e => inl e
          | inr tokens => inr (token :: tokens)
          end
      end
  end.

Definition get_token_balances (self : t) (address network : string)
    (limit page : Z) : M unit (list TokenBalance.t) :=
  match get_chain_info network with
  | None => Eff.ret []
  | Some chain_info =>
      let query_params :=
        {| req_url := BALANCES_URL;
           req_network := ChainInfo.network_name chain_info;
           req_address := address;
           req_limit := limit;
           req_page := page;
           req_include_null_balances := false;
           req_bearer := api_key self;
           req_timeout := client_timeout self |} in
      Eff.try_
        (let* response := Eff.http_get query_params in
         do Eff.raise_for_status response then
         let* j := Eff.lift (json response) in
         let* data := Eff.lift (validate_tokens j) in
         let* tokens := Eff.lift (token_balances chain_info data) in
         Eff.ret tokens)
        (reraise "Error fetching token balances: ")
  end.

(** The body of [while True:] in [get_all_token_balances]. *)
Definition all_tokens_page (self : t) (address network : string)
    : M (paging TokenBalance.t) (Eff.ctl (list TokenBalance.t)) :=
  Eff.try_
    (do Eff.sleep REQUEST_DELAY then
     let* l := Eff.locals in
     let* tokens :=
       Eff.call tt (get_token_balances self address network DEFAULT_LIMIT (page l)) in
     match tokens with
     | [] => Eff.ret Eff.Break
     | _ =>
         do Eff.assign (fun l => {| all_tokens := all_tokens l ++ tokens;
                                    page := page l |}) then
         if Z.of_nat (length tokens) <? DEFAULT_LIMIT then Eff.ret Eff.Break
         else do Eff.assign next_page then Eff.ret Eff.Next
     end)
    (fun e =>
       if is_ValueError e then
         let error_message := exn_str e in
         if PyStr.contains "rate limit" (PyStr.lower error_message) then
           do Eff.sleep 5000 then Eff.ret Eff.Next
         else Eff.raise e
       else Eff.raise e).

Definition get_all_token_balances (fuel : nat) (self : t)
    (address network : string) : M unit (list TokenBalance.t) :=
  Eff.call {| all_tokens := []; page := 1 |}
    (let* r := Eff.while fuel (fun _ => true)
                 (all_tokens_page self address network) in
     match r with
     | Some v => Eff.ret v
     | None => let* l := Eff.locals in Eff.ret (all_tokens l)
     end).

(** [for token in all_tokens: if token.token_symbol.upper() ==
    token_symbol_upper: return token] *)
Fixpoint first_with_symbol (token_symbol_upper : string)
    (tokens : list TokenBalance.t) : option TokenBalance.t :=
  match tokens with
  | [] => None
  | token :: rest =>
      if String.eqb (PyStr.upper (TokenBalance.token_symbol token))
                    token_symbol_upper
      then Some token
      else first_with_symbol token_symbol_upper rest
  end.

Definition get_token_balance_by_symbol (fuel : nat) (self : t)
    (address token_symbol network : string) : M unit (option TokenBalance.t) :=
  let* all_tokens := get_all_token_balances fuel self address network in
  let token_symbol_upper := PyStr.upper token_symbol in
  Eff.ret (first_with_symbol token_symbol_upper all_tokens).

End Methods.

End TheGraphClient.

(** ** A concrete runtime and canned upstream services

    [Sample.runtime] fixes the open operations on the inputs used by the
    examples: amounts that are integer literals, [decimals] between 0 and 22
    (so that [10**decimals] is an exact float), prices that are absent,
    integers or floats, and JSON bodies whose fields already have the types
    that the response models declare. *)

Module Sample.

Definition uncovered : exn := OtherException "outside the sample runtime".

Definition float_of (v : pyval) : exn + spec_float :=
  match v with
  | PStr s =>
      match PyStr.int s with
      | Some n => inr (PyFloat.of_Z n)
      | None =>
          inl (ValueError ("could not convert string to float: " ++ PyStr.repr s))
      end
  | PInt n => inr (PyFloat.of_Z n)
  | PFloat f => inr f
  | PBool b => inr (PyFloat.of_Z (if b then 1 else 0))
  | _ =>
      inl (TypeError ("float() argument must be a string or a real number, not '"
                      ++ Py.type_name v ++ "'"))
  end.

Definition amounts (decimals balance_raw value : pyval) : exn + (string * string) :=
  match decimals with
  | PInt d =>
      if (0 <=? d) && (d <=? 22) then
        match float_of balance_raw with
        | inl e => inl e
        | inr f =>
            let balance_num := PyFloat.div f (PyFloat.of_Z (10 ^ d)) in
            let balance_str :=
              PyStr.rstrip "." (PyStr.rstrip "0" (PyFloat.format_f 18 false balance_num)) in
            match Py.or_ value (PInt 0) with
            | PInt p =>
                inr (balance_str,
                     PyFloat.format_f 2 false (PyFloat.mul balance_num (PyFloat.of_Z p)))
            | PFloat p =>
                inr (balance_str, PyFloat.format_f 2 false (PyFloat.mul balance_num p))
            | _ => inl uncovered
            end
        end
      else inl uncovered
  | _ => inl uncovered
  end.

Definition str_field (k : string) (d : dict) : exn + string :=
  match Dict.get k d with
  | Some (PStr s) => inr s
  | _ => inl (ValidationError k)
  end.

Definition int_field (k : string) (d : dict) : exn + Z :=
  match Dict.get k d with
  | Some (PInt n) => inr n
  | _ => inl (ValidationError k)
  end.

Definition opt_str_field (k : string) (d : dict) : exn + option string :=
  match Dict.get k d with
  | Some (PStr s) => inr (Some s)
  | Some PNone | None => inr None
  | _ => inl (ValidationError k)
  end.

Definition opt_int_field (k : string) (dflt : option Z) (d : dict) : exn + option Z :=
  match Dict.get k d with
  | Some (PInt n) => inr (Some n)
  | Some PNone => inr None
  | None => inr dflt
  | _ => inl (ValidationError k)
  end.

Definition opt_float_field (k : string) (d : dict) : exn + option spec_float :=
  match Dict.get k d with
  | Some (PFloat f) => inr (Some f)
  | Some (PInt n) => inr (Some (PyFloat.of_Z n))
  | Some PNone | None => inr None
  | _ => inl (ValidationError k)
  end.

Definition and_then {A B} (r : exn + A) (k : A -> exn + B) : exn + B :=
  match r with inl e => inl e | inr a => k a end.

Definition token_item (v : pyval) : exn + TheGraphTokenBalance.t :=
  match v with
  | PDict d =>
      and_then (str_field "last_update" d) (fun last_update =>
      and_then (int_field "last_update_block_num" d) (fun block_num =>
      and_then (int_field "last_update_timestamp" d) (fun timestamp =>
      and_then (str_field "address" d) (fun address =>
      and_then (str_field "contract" d) (fun contract =>
      and_then (str_field "amount" d) (fun amount =>
      and_then (opt_float_field "value" d) (fun value =>
      and_then (str_field "name" d) (fun name =>
      and_then (str_field "symbol" d) (fun symbol =>
      and_then (int_field "decimals" d) (fun decimals =>
      and_then (str_field "network" d) (fun network =>
      inr {| TheGraphTokenBalance.last_update := last_update;
             TheGraphTokenBalance.last_update_block_num := block_num;
             TheGraphTokenBalance.last_update_timestamp := timestamp;
             TheGraphTokenBalance.address := address;
             TheGraphTokenBalance.contract := contract;
             TheGraphTokenBalance.amount := amount;
             TheGraphTokenBalance.value := value;
             TheGraphTokenBalance.name := name;
             TheGraphTokenBalance.symbol := symbol;
             TheGraphTokenBalance.decimals := decimals;
             TheGraphTokenBalance.network := network |})))))))))))
  | _ => inl (ValidationError "data")
  end.

Definition native_item (v : pyval) : exn + TheGraphNativeBalance.t :=
  match v with
  | PDict d =>
      and_then (str_field "address" d) (fun address =>
      and_then (str_field "amount" d) (fun amount =>
      and_then (opt_str_field "balance" d) (fun balance =>
      and_then (str_field "network" d) (fun network =>
      and_then (opt_str_field "contract" d) (fun contract =>
      and_then (opt_str_field "symbol" d) (fun symbol =>
      and_then (opt_str_field "name" d) (fun name =>
      and_then (opt_int_field "decimals" (Some 18) d) (fun decimals =>
      and_then (opt_float_field "value" d) (fun value =>
      and_then (opt_str_field "last_update" d) (fun last_update =>
      and_then (opt_int_field "last_update_block_num" None d) (fun block_num =>
      and_then (opt_int_field "last_update_timestamp" None d) (fun timestamp =>
      inr {| TheGraphNativeBalance.address := address;
             TheGraphNativeBalance.amount := amount;
             TheGraphNativeBalance.balance := balance;
             TheGraphNativeBalance.network := network;
             TheGraphNativeBalance.contract := contract;
             TheGraphNativeBalance.symbol := symbol;
             TheGraphNativeBalance.name := name;
             TheGraphNativeBalance.decimals := decimals;
             TheGraphNativeBalance.value := value;
             TheGraphNativeBalance.last_update := last_update;
             TheGraphNativeBalance.last_update_block_num := block_num;
             TheGraphNativeBalance.last_update_timestamp := timestamp |}))))))))))))
  | _ => inl (ValidationError "data")
  end.

Fixpoint each {A} (f : pyval -> exn + A) (l : list pyval) : exn + list A :=
  match l with
  | [] => inr []
  | x :: r => and_then (f x) (fun a => and_then (each f r) (fun t => inr (a :: t)))
  end.

Definition data_list {A} (f : pyval -> exn + A) (j : pyval) : exn + list A :=
  match j with
  | PDict d =>
      match Dict.get "data" d with
      | Some (PList l) => each f l
      | _ => inl (ValidationError "data")
      end
  | _ => inl (TypeError "argument after ** must be a mapping")
  end.

#[export] Instance runtime : PyRuntime := {|
  py_float := float_of;
  render_amounts := amounts;
  float_str := PyFloat.format_f 1 false;
  pow10_neg := fun k => PyFloat.lit_neg_pow10 (- k);
  validate_native := data_list native_item;
  validate_tokens := data_list token_item
|}.

(** One item of the token-balances endpoint. *)
Definition token (symbol amount : string) (decimals : Z) : pyval :=
  PDict [("last_update", PStr "2025-01-01 00:00:00");
         ("last_update_block_num", PInt 21000000);
         ("last_update_timestamp", PInt 1735689600);
         ("address", PStr "0xd8da6bf26964af9d7eed9e03e53415d37aa96045");
         ("contract", PStr ("0xc0de" ++ symbol));
         ("amount", PStr amount);
         ("value", PNone);
         ("name", PStr (symbol ++ " Token"));
         ("symbol", PStr symbol);
         ("decimals", PInt decimals);
         ("network", PStr "mainnet")].


Definition ok (items : list pyval) : exn + response :=
  inr {| status_code := 200; json := inr (PDict [("data", PList items)]) |}.

Definition status (code : Z) : exn + response :=
  inr {| status_code := code; json := inr (PDict [("error", PStr "denied")]) |}.

Definition ten_tokens : list pyval :=
  [token "USDC" "1500000" 6; token "DAI" "2000000000000000000" 18;
   token "WETH" "500000000000000000" 18; token "LINK" "7" 0;
   token "UNI" "1" 18; token "AAVE" "30" 1; token "MKR" "4" 2;
   token "SNX" "5" 3; token "COMP" "6" 4; token "CRV" "8" 5].

(** The service answers the [n]-th request from a script and with an empty
    page afterwards. *)
Definition scripted (answers : list (exn + response)) (key : option string)
    : Environment := {|
  upstream := fun n _ => nth n answers (ok []);
  environ :=
    match key with
    | Some k => {[ "THEGRAPH_API_KEY" := k ]}
    | None => ∅
    end
|}.

(** The service answers every request with the same full page. *)
Definition endless (key : option string) : Environment := {|
  upstream := fun _ _ => ok ten_tokens;
  environ :=
    match key with
    | Some k => {[ "THEGRAPH_API_KEY" := k ]}
    | None => ∅
    end
|}.

Definition address : string := "0xd8da6bf26964af9d7eed9e03e53415d37aa96045".

(** The record that the dictionary clients build for
    [token "USDC" "1500000" 6]. *)
Definition usdc_record : pyval :=
  PDict [("token_type", PStr "ERC20"); ("token_symbol", PStr "USDC");
         ("token_address", PStr "0xc0deUSDC"); ("token_name", PStr "USDC Token");
         ("balance", PStr "1.5"); ("balance_raw", PStr "1500000");
         ("decimals", PInt 6); ("usd_value", PStr "0.00");
         ("chain_name", PStr "Ethereum"); ("chain_id", PStr "1");
         ("error", PNone)].

(** The items that the facade validates out of [ten_tokens]. *)
Definition ten_validated : list TheGraphTokenBalance.t :=
  match each token_item ten_tokens with
  | inr data => data
  | inl _ => []
  end.

Definition client : TheGraphClient.t :=
  {| TheGraphClient.api_key := "jwt"; TheGraphClient.client_timeout := 30 |}.

End Sample.

(** ** The specification's vocabulary *)

(** The seven canonical network names with their chain identifiers. *)
Definition canonical_networks : list (string * string) :=
  [("ethereum", "1"); ("polygon", "137"); ("base", "8453");
   ("arbitrum", "42161"); ("optimism", "10"); ("bsc", "56");
   ("avalanche", "43114")].

(** [format_amount] as the specification words it, on the parsed integers:
    the padding and the stripping are written out here, apart from the
    string methods that the code calls. *)






(** The characters of a string that [int()] accepts: digits, blanks, signs
    and the underscore. *)
Definition int_char (c : ascii) : bool :=
  match PyStr.digit_val c with
  | Some _ => true
  | None =>
      PyStr.is_space c || Ascii.eqb c "+" || Ascii.eqb c "-" || Ascii.eqb c "_"
  end.

(** A function called from the top level: no local variables, a fresh
    world. *)
Definition run {A} (m : M unit A) : outcome A * world :=
  let '(r, _, w) := m tt world0 in (r, w).

(** The request that [get_all_token_balances_thegraph] sends for page [p]. *)
Definition thegraph_request (chain_info : ChainInfo.t)
    (account_address api_key : string) (p : Z) : request :=
  {| req_url := BALANCES_URL;
     req_network := ChainInfo.network_name chain_info;
     req_address := account_address;
     req_limit := 10;
     req_page := p;
     req_include_null_balances := false;
     req_bearer := api_key;
     req_timeout := 30 |}.

(** The request that [get_multiple_token_balances_ethereum_thegraph] sends
    for page [p]. *)
Definition ethereum_request (account_address api_key : string) (p : Z) : request :=
  {| req_url := BALANCES_URL;
     req_network := "mainnet";
     req_address := account_address;
     req_limit := 10;
     req_page := p;
     req_include_null_balances := false;
     req_bearer := api_key;
     req_timeout := 15 |}.

(** The answer to a request was a 429 response. *)
Definition rate_limited (r : exn + response) : bool :=
  match r with
  | inr resp => status_code resp =? 429
  | inl _ => false
  end.

(** The discipline of a pagination trace that starts with request number
    [n] at page [p]: every request is preceded by the pause [delay] and asks
    for the expected page; after a 429 answer the pause [cooldown] follows
    and the same page is expected again, after any other answer the next
    page is. *)
Fixpoint paced `{Environment} (delay cooldown : Z) (n : nat) (p : Z)
    (tr : list event) {struct tr} : Prop :=
  match tr with
  | [] => True
  | Sleep d :: Send r :: rest =>
      d = delay /\ req_page r = p /\
      if rate_limited (upstream n r) then
        match rest with
        | Sleep c :: rest' => c = cooldown /\ paced delay cooldown (S n) p rest'
        | _ => False
        end
      else paced delay cooldown (S n) (p + 1) rest
  | _ => False
  end.

(** The trace of a pagination loop that has [fuel] iterations to run from
    request number [n] at page [p]: each iteration pauses [delay] and sends
    the request for its page; after a 429 answer it pauses [cooldown] and
    the next iteration asks the same page again; after any other answer
    the loop either stops or goes on with the next page. *)
Fixpoint follows `{Environment} (request_for : Z -> request)
    (delay cooldown : Z) (fuel n : nat) (p : Z) (tr : list event) : Prop :=
  match fuel with
  | O => tr = []
  | S f =>
      exists rest,
        tr = Sleep delay :: Send (request_for p) :: rest /\
        if rate_limited (upstream n (request_for p)) then
          exists rest',
            rest = Sleep cooldown :: rest' /\
            follows request_for delay cooldown f (S n) p rest'
        else
          rest = [] \/ follows request_for delay cooldown f (S n) (p + 1) rest
  end.

(** The tokens that one loop over the items of a page appends, and the
    exception that cut it short. *)
Fixpoint appended (convert : pyval -> exn + option pyval) (items : list pyval)
    : list pyval * option exn :=
  match items with
  | [] => ([], None)
  | balance :: rest =>
      match convert balance with
      | inl e => ([], Some e)
      | inr kept =>
          let '(ts, e) := appended convert rest in
          (match kept with Some t => t :: ts | None => ts end, e)
      end
  end.

Section Vocabulary.
Context `{PyRuntime} `{Environment}.

(** What the loop of [get_all_token_balances_thegraph] does with one
    item. *)
Definition thegraph_item (chain_info : ChainInfo.t) (balance : pyval)
    : exn + option pyval :=
  match token_data (ChainInfo.name chain_info) (ChainInfo.chain_id chain_info)
          balance with
  | inl e => inl e
  | inr t => inr (Some t)
  end.

(** What the Ethereum loop does with one item: the token, if it passes
    the symbol filter. *)
Definition ethereum_item (token_symbols : option (list string))
    (balance : pyval) : exn + option pyval :=
  match token_data "Ethereum" "1" balance with
  | inl e => inl e
  | inr t =>
      match symbol_selected token_symbols t with
      | inl e => inl e
      | inr keep => inr (if keep : bool then Some t else None)
      end
  end.

(** The tokens that the Ethereum loop has gathered after the answers
    number [first], ..., [first + count - 1] were full pages. *)
Definition gathered (token_symbols : option (list string))
    (pages : nat -> list pyval) (first count : nat) : list pyval :=
  flat_map (fun n => fst (appended (ethereum_item token_symbols) (pages n)))
    (seq first count).

(** A full page for the Ethereum loop: a 2xx answer whose [data] is a
    list of at least ten items, each of which the loop converts. *)
Definition full_page (token_symbols : option (list string))
    (answer : exn + response) (items : list pyval) : Prop :=
  exists resp body,
    answer = inr resp /\
    200 <= status_code resp <= 299 /\
    json resp = inr (PDict body) /\
    Dict.get "data" body = Some (PList items) /\
    (10 <= length items)%nat /\
    snd (appended (ethereum_item token_symbols) items) = None.

(** A full page for the facade: a 2xx answer that validates to at least
    ten items, each of which the loop converts: its divisor has no more
    digits than [str] prints. *)
Definition full_page_validated (answer : exn + response)
    (data : list TheGraphTokenBalance.t) : Prop :=
  exists resp j,
    answer = inr resp /\
    200 <= status_code resp <= 299 /\
    json resp = inr j /\
    validate_tokens j = inr data /\
    (10 <= length data)%nat /\
    Forall (fun balance =>
              TheGraphTokenBalance.decimals balance < PyStr.max_str_digits) data.

(** The result of an iteration that ends the call: the list gathered so
    far with an error, or the empty list with the error of a 401 or 403
    answer. *)
Definition partial_result (l : paging pyval) (v : pyval) : Prop :=
  exists msg, msg <> "" /\
    (v = tokens_result (all_tokens l) (PStr msg) \/
     v = tokens_result [] (PStr msg) /\
     exists n r resp,
       upstream n r = inr resp /\
       (status_code resp = 401 \/ status_code resp = 403)).

End Vocabulary.

(** A string of decimal digits. *)
Fixpoint all_digits (s : string) : bool :=
  match s with
  | EmptyString => true
  | String c r =>
      match PyStr.digit_val c with Some _ => all_digits r | None => false end
  end.


(** ** Further vocabulary *)

(** The value of a run of decimal digits read after the value [acc]. *)
Fixpoint uint_value (acc : Z) (d : Decimal.uint) : Z :=
  match d with
  | Decimal.Nil => acc
  | Decimal.D0 l => uint_value (10 * acc) l
  | Decimal.D1 l => uint_value (10 * acc + 1) l
  | Decimal.D2 l => uint_value (10 * acc + 2) l
  | Decimal.D3 l => uint_value (10 * acc + 3) l
  | Decimal.D4 l => uint_value (10 * acc + 4) l
  | Decimal.D5 l => uint_value (10 * acc + 5) l
  | Decimal.D6 l => uint_value (10 * acc + 6) l
  | Decimal.D7 l => uint_value (10 * acc + 7) l
  | Decimal.D8 l => uint_value (10 * acc + 8) l
  | Decimal.D9 l => uint_value (10 * acc + 9) l
  end.


(** A float whose sign bit is clear. *)
Definition unsigned_float (x : spec_float) : Prop :=
  match x with
  | S754_nan => True
  | S754_zero s | S754_infinity s | S754_finite s _ _ => s = false
  end.

(** * Theorems *)

(** ** The chain registry *)

Lemma lower_char_digit (c d : ascii) :
  PyStr.lower_char c = d -> PyStr.digit_val d <> None -> c = d.
Proof.
  intros <-.
  destruct c as [[] [] [] [] [] [] [] []]; vm_compute; congruence.
Qed.

Lemma lower_of_digits (s t : string) :
  PyStr.lower s = t -> all_digits t = true -> s = t.
Proof.
  revert t. induction s as [|c s IH]; intros t Hl Hd.
  - exact Hl.
  - simpl in Hl. subst t. simpl in Hd.
    destruct (PyStr.digit_val (PyStr.lower_char c)) eqn:Hc; [|discriminate].
    change (PyStr.lower (String c s))
      with (String (PyStr.lower_char c) (PyStr.lower s)).
    f_equal.
    + apply lower_char_digit; [reflexivity | congruence].
    + apply IH; [reflexivity | exact Hd].
Qed.


(** C9. [get_chain_info] resolves a canonical network name, in any letter
    case, to the same [ChainInfo] as its chain-id string, and resolves to
    [None] every string that is neither one of the seven names nor one of
    the seven chain-id strings; in particular ["1"] and ["ethereum"] agree
    and ["notachain"] is unknown. *)
Theorem get_chain_info_aliases (network : string) :
  (forall name id,
     (name, id) ∈ canonical_networks -> PyStr.lower network = name ->
     get_chain_info network = get_chain_info id /\
     is_Some (get_chain_info id)) /\
  (PyStr.lower network ∉ canonical_networks.*1 ->
   network ∉ canonical_networks.*2 ->
   get_chain_info network = None) /\
  get_chain_info "1" = get_chain_info "ethereum" /\
  get_chain_info "notachain" = None.
Proof.
  split; [|split; [|split; reflexivity]].
  - intros name id Hin Hl. unfold get_chain_info. rewrite Hl.
    unfold canonical_networks in Hin.
    repeat (apply elem_of_cons in Hin as [Heq | Hin];
            [injection Heq as -> ->; split; [reflexivity | eexists; reflexivity] |]).
    apply elem_of_nil in Hin. contradiction.
  - intros Hname Hid.
    assert (Hid' : PyStr.lower network ∉ canonical_networks.*2).
    { intros Hin. apply Hid.
      assert (Hd : all_digits (PyStr.lower network) = true).
      { unfold canonical_networks in Hin. simpl in Hin.
        repeat (apply elem_of_cons in Hin as [-> | Hin]; [reflexivity |]).
        apply elem_of_nil in Hin. contradiction. }
      rewrite (lower_of_digits network _ eq_refl Hd). exact Hin. }
    unfold get_chain_info.
    assert (H1 : SUPPORTED_CHAINS !! PyStr.lower network = None).
    { apply not_elem_of_list_to_map_1. exact Hid'. }
    assert (H2 : NETWORK_NAME_TO_CHAIN_ID !! PyStr.lower network = None).
    { apply not_elem_of_list_to_map_1. exact Hname. }
    rewrite H1, H2. reflexivity.
Qed.

Lemma get_chain_info_aliases_witness :
  get_chain_info "Ethereum" = get_chain_info "1" /\
  get_chain_info "mainnet" = None.
Proof.
  split.
  - destruct (get_chain_info_aliases "Ethereum") as [Halias _].
    destruct (Halias "ethereum" "1") as [Heq _];
      [constructor | reflexivity | exact Heq].
  - destruct (get_chain_info_aliases "mainnet") as (_ & Hnone & _).
    apply Hnone; vm_compute; intros Hin;
      repeat (apply elem_of_cons in Hin as [Heq | Hin]; [discriminate Heq |]);
      apply elem_of_nil in Hin; exact Hin.
Defined.

(** ** Integers and their digits *)

Lemma digit_val_range (c : ascii) (d : Z) :
  PyStr.digit_val c = Some d -> 0 <= d <= 9.
Proof.
  unfold PyStr.digit_val.
  destruct (_ && _) eqn:Hc; [| discriminate].
  intros [= <-]. apply andb_true_iff in Hc as [Hlo Hhi].
  apply Nat.leb_le in Hlo, Hhi. lia.
Qed.



Lemma of_uint_acc_value (d : Decimal.uint) (acc : positive) :
  Z.pos (Pos.of_uint_acc d acc) = uint_value (Z.pos acc) d.
Proof.
  revert acc. induction d; intros acc; cbn [Pos.of_uint_acc uint_value];
    [reflexivity | ..]; rewrite IHd; f_equal; lia.
Qed.

Lemma of_uint_value (d : Decimal.uint) :
  Z.of_N (Pos.of_uint d) = uint_value 0 d.
Proof.
  induction d; cbn [Pos.of_uint uint_value]; [reflexivity | exact IHd | ..];
    cbn [Z.of_N]; rewrite of_uint_acc_value; reflexivity.
Qed.

Lemma to_uint_value (p : positive) : uint_value 0 (Pos.to_uint p) = Z.pos p.
Proof.
  rewrite <- of_uint_value, DecimalPos.Unsigned.of_to. reflexivity.
Qed.

Lemma string_of_uint_length (d : Decimal.uint) :
  String.length (NilEmpty.string_of_uint d) = Decimal.nb_digits d.
Proof. induction d; simpl; congruence. Qed.

Lemma uint_value_split (d : Decimal.uint) (acc : Z) :
  uint_value acc d =
    acc * 10 ^ Z.of_nat (Decimal.nb_digits d) + uint_value 0 d /\
  0 <= uint_value 0 d < 10 ^ Z.of_nat (Decimal.nb_digits d).
Proof.
  revert acc. induction d; intros acc; cbn [uint_value Decimal.nb_digits];
    [split; [simpl; lia | simpl; lia] | ..];
    rewrite Nat2Z.inj_succ, Z.pow_succ_r by lia;
    match goal with
    | |- context [uint_value (10 * acc + ?k) d] =>
        destruct (IHd (10 * acc + k)) as [-> Hb];
        destruct (IHd (10 * 0 + k)) as [-> _]
    | |- context [uint_value (10 * acc) d] =>
        destruct (IHd (10 * acc)) as [-> Hb];
        destruct (IHd (10 * 0)) as [-> _]
    end; (split; [ring | nia]).
Qed.

(** The number of digits that [str] writes for a positive number. *)
Lemma to_uint_digits (p : positive) :
  let L := Z.of_nat (Decimal.nb_digits (Pos.to_uint p)) in
  10 ^ (L - 1) <= Z.pos p < 10 ^ L.
Proof.
  intros L. subst L.
  pose proof (to_uint_value p) as Hv.
  pose proof (DecimalPos.Unsigned.to_uint_nonzero p) as Hnz.
  assert (Hnorm : Decimal.unorm (Pos.to_uint p) = Pos.to_uint p).
  { rewrite <- DecimalPos.Unsigned.to_of, DecimalPos.Unsigned.of_to. reflexivity. }
  destruct (uint_value_split (Pos.to_uint p) 0) as [_ Hb].
  rewrite Hv in Hb. split; [| apply Hb].
  destruct (Pos.to_uint p) as [|l|l|l|l|l|l|l|l|l|l] eqn:Hd;
    cbn [Decimal.nb_digits uint_value] in *;
    [simpl; lia | ..];
    rewrite Nat2Z.inj_succ; replace (Z.succ (Z.of_nat (Decimal.nb_digits l)) - 1)
      with (Z.of_nat (Decimal.nb_digits l)) by lia.
  - exfalso. rewrite DecimalFacts.unorm_D0 in Hnorm.
    destruct l as [|l'|l'|l'|l'|l'|l'|l'|l'|l'|l'] eqn:Hl;
      [apply Hnz; reflexivity | ..];
      match goal with
      | H : Decimal.unorm ?u = _ |- _ =>
          assert (Hle : (Decimal.nb_digits (Decimal.unorm u) <= Decimal.nb_digits u)%nat)
            by (apply DecimalFacts.nb_digits_unorm; discriminate);
          rewrite H in Hle; cbn [Decimal.nb_digits] in Hle; lia
      end.
  - rewrite <- Hv. destruct (uint_value_split l (10 * 0 + 1)) as [-> _].
    destruct (uint_value_split l 0) as [_ Hl]. nia.
  - rewrite <- Hv. destruct (uint_value_split l (10 * 0 + 2)) as [-> _].
    destruct (uint_value_split l 0) as [_ Hl]. nia.
  - rewrite <- Hv. destruct (uint_value_split l (10 * 0 + 3)) as [-> _].
    destruct (uint_value_split l 0) as [_ Hl]. nia.
  - rewrite <- Hv. destruct (uint_value_split l (10 * 0 + 4)) as [-> _].
    destruct (uint_value_split l 0) as [_ Hl]. nia.
  - rewrite <- Hv. destruct (uint_value_split l (10 * 0 + 5)) as [-> _].
    destruct (uint_value_split l 0) as [_ Hl]. nia.
  - rewrite <- Hv. destruct (uint_value_split l (10 * 0 + 6)) as [-> _].
    destruct (uint_value_split l 0) as [_ Hl]. nia.
  - rewrite <- Hv. destruct (uint_value_split l (10 * 0 + 7)) as [-> _].
    destruct (uint_value_split l 0) as [_ Hl]. nia.
  - rewrite <- Hv. destruct (uint_value_split l (10 * 0 + 8)) as [-> _].
    destruct (uint_value_split l 0) as [_ Hl]. nia.
  - rewrite <- Hv. destruct (uint_value_split l (10 * 0 + 9)) as [-> _].
    destruct (uint_value_split l 0) as [_ Hl]. nia.
Qed.

Lemma str_pos (p : positive) :
  PyStr.str (Z.pos p) = NilEmpty.string_of_uint (Pos.to_uint p).
Proof.
  unfold PyStr.str. cbn [Z.to_int NilZero.string_of_int].
  unfold NilZero.string_of_uint.
  pose proof (DecimalPos.Unsigned.to_uint_nonnil p) as Hnil.
  destruct (Pos.to_uint p); [contradiction | ..]; reflexivity.
Qed.

(** [len(str(n))] for a positive [n]. *)
Lemma len_str_bounds (n : Z) :
  0 < n -> 10 ^ (PyStr.len (PyStr.str n) - 1) <= n < 10 ^ PyStr.len (PyStr.str n).
Proof.
  intros Hn. destruct n as [|p|p]; try lia.
  rewrite str_pos. unfold PyStr.len. rewrite string_of_uint_length.
  apply to_uint_digits.
Qed.

Lemma len_str_pow10 (k : Z) : 0 <= k -> PyStr.len (PyStr.str (10 ^ k)) = k + 1.
Proof.
  intros Hk.
  assert (Hpos : 0 < 10 ^ k) by (apply Z.pow_pos_nonneg; lia).
  destruct (len_str_bounds _ Hpos) as [Hlo Hhi].
  assert (Hlen : 0 <= PyStr.len (PyStr.str (10 ^ k))) by (unfold PyStr.len; lia).
  apply Z.pow_lt_mono_r_iff in Hhi; [| lia | lia].
  destruct (Z.le_gt_cases (PyStr.len (PyStr.str (10 ^ k)) - 1) k) as [Hle | Hgt];
    [lia |].
  apply Z.pow_le_mono_r_iff in Hlo; lia.
Qed.

Lemma len_str_below_pow10 (n k : Z) :
  0 < n < 10 ^ k -> 0 <= k -> PyStr.len (PyStr.str n) <= k.
Proof.
  intros [Hn Hlt] Hk.
  destruct (len_str_bounds _ Hn) as [Hlo _].
  assert (Hlen : 0 <= PyStr.len (PyStr.str n)) by (unfold PyStr.len; lia).
  assert (Hpow : 10 ^ (PyStr.len (PyStr.str n) - 1) < 10 ^ k) by lia.
  destruct (Z.eq_dec (PyStr.len (PyStr.str n)) 0) as [H0 | H0]; [lia |].
  apply Z.pow_lt_mono_r_iff in Hpow; lia.
Qed.


(** ** [int()] and [str()] within the digit limit *)

(** An integer that [str] prints: it has at most [max_str_digits] digits. *)
Lemma py_str_within (n : Z) :
  PyStr.len (PyStr.str (Z.abs n)) <= PyStr.max_str_digits ->
  Py.str n = inr (PyStr.str n).
Proof.
  intros Hlen. unfold Py.str.
  destruct (Z.ltb_spec PyStr.max_str_digits (PyStr.len (PyStr.str (Z.abs n))));
    [lia | reflexivity].
Qed.

Lemma py_str_total (n : Z) :
  (exists s, Py.str n = inr s) \/ (exists msg, Py.str n = inl (ValueError msg)).
Proof.
  unfold Py.str. destruct (_ <? _); [right | left]; eexists; reflexivity.
Qed.

Lemma py_int_some (s : string) (n : Z) :
  PyStr.int s = Some n -> Py.int s = inr n.
Proof.
  unfold PyStr.int, Py.int. destruct (PyStr.int_literal s); congruence.
Qed.

Lemma py_int_none (s : string) :
  PyStr.int s = None -> exists msg, Py.int s = inl (ValueError msg).
Proof.
  unfold PyStr.int, Py.int.
  destruct (PyStr.int_literal s); [discriminate | |]; eexists; reflexivity.
Qed.

(** The digits that [scan_digits] counts bound the value that it reads. *)
Lemma scan_digits_bound (s : string) :
  forall (u : bool) (count acc count' value : Z) (rest : string),
    PyStr.scan_digits u count acc s = Some (count', value, rest) ->
    0 <= count -> 0 <= acc < 10 ^ count ->
    count <= count' /\ 0 <= value < 10 ^ count'.
Proof.
  induction s as [| c s IH]; intros u count acc count' value rest Hscan Hc Hacc;
    cbn [PyStr.scan_digits] in Hscan.
  - destruct u; [discriminate |]. injection Hscan as <- <- <-. lia.
  - destruct (PyStr.digit_val c) as [d |] eqn:Hd.
    + apply digit_val_range in Hd.
      apply IH in Hscan; [lia | lia |].
      rewrite Z.pow_add_r by lia. lia.
    + destruct (Ascii.eqb c "_").
      * destruct u; [discriminate |]. apply IH in Hscan; lia.
      * destruct u; [discriminate |]. injection Hscan as <- <- <-. lia.
Qed.

(** What [int()] reads has at most [max_str_digits] digits, so [str]
    prints it, and every number between it and zero. *)
Lemma int_within (s : string) (n : Z) :
  PyStr.int s = Some n ->
  PyStr.len (PyStr.str (Z.abs n)) <= PyStr.max_str_digits.
Proof.
  assert (Hunsigned : forall neg t,
    PyStr.int_unsigned neg t = PyStr.Int n ->
    PyStr.len (PyStr.str (Z.abs n)) <= PyStr.max_str_digits).
  { intros neg t. unfold PyStr.int_unsigned.
    destruct (PyStr.prefix_b "_" t); [discriminate |].
    destruct (PyStr.scan_digits false 0 0 t) as [[[count value] rest] |] eqn:Hscan;
      [| discriminate].
    apply scan_digits_bound in Hscan as [Hcount Hvalue]; [| lia | simpl; lia].
    destruct (Z.ltb_spec PyStr.max_str_digits count); [discriminate |].
    destruct (Z.eqb_spec count 0); [discriminate |].
    destruct (PyStr.all_space rest); [| discriminate].
    intros [= <-].
    replace (Z.abs (if neg then - value else value)) with value
      by (destruct neg; lia).
    destruct (Z.eq_dec value 0) as [-> | Hnz]; [change (PyStr.len (PyStr.str 0)) with 1; lia |].
    transitivity count; [| assumption].
    apply len_str_below_pow10; lia. }
  unfold PyStr.int, PyStr.int_literal.
  destruct (PyStr.lstrip_space s) as [| c r]; [discriminate |].
  destruct (Ascii.eqb c "-"); [| destruct (Ascii.eqb c "+")];
    match goal with
    | |- context [PyStr.int_unsigned ?neg ?t] =>
        destruct (PyStr.int_unsigned neg t) eqn:Hu; try discriminate;
        intros [= ->]; exact (Hunsigned _ _ Hu)
    end.
Qed.





(** Every character of a string that [int()] reads is a digit, a blank, a
    sign or an underscore. *)
Lemma scan_digits_chars (s : string) :
  forall (u : bool) (count acc count' value : Z) (rest : string) (c : ascii),
    PyStr.scan_digits u count acc s = Some (count', value, rest) ->
    PyStr.has_char c s = true ->
    int_char c = true \/ PyStr.has_char c rest = true.
Proof.
  induction s as [| a s IH]; intros u count acc count' value rest c Hscan Hin;
    cbn [PyStr.scan_digits PyStr.has_char] in *; [discriminate |].
  destruct (Ascii.eqb_spec a c) as [Hac | Hne]; cbn [orb] in Hin.
  - subst a. unfold int_char. destruct (PyStr.digit_val c); [left; reflexivity |].
    destruct (Ascii.eqb_spec c "_") as [Hc | Hc]; [subst c; left; reflexivity |].
    destruct u; [discriminate |]. injection Hscan as <- <- <-.
    right. cbn [PyStr.has_char]. rewrite Ascii.eqb_refl. reflexivity.
  - destruct (PyStr.digit_val a); [eapply IH; eassumption |].
    destruct (Ascii.eqb a "_").
    + destruct u; [discriminate |]. eapply IH; eassumption.
    + destruct u; [discriminate |]. injection Hscan as <- <- <-.
      right. cbn [PyStr.has_char].
      destruct (Ascii.eqb_spec a c); [congruence |]. exact Hin.
Qed.

Lemma all_space_chars (s : string) (c : ascii) :
  PyStr.all_space s = true -> PyStr.has_char c s = true -> PyStr.is_space c = true.
Proof.
  induction s as [| a s IH]; cbn [PyStr.all_space PyStr.has_char]; [discriminate |].
  intros Hs Hin. apply andb_true_iff in Hs as [Ha Hs].
  destruct (Ascii.eqb_spec a c) as [<- | _]; [exact Ha | exact (IH Hs Hin)].
Qed.

Lemma is_space_int_char (c : ascii) : PyStr.is_space c = true -> int_char c = true.
Proof.
  intros Hc. unfold int_char. rewrite Hc.
  destruct (PyStr.digit_val c); reflexivity.
Qed.

Lemma int_chars (s : string) (n : Z) (c : ascii) :
  PyStr.int s = Some n -> PyStr.has_char c s = true -> int_char c = true.
Proof.
  assert (Hunsigned : forall neg t,
    PyStr.int_unsigned neg t = PyStr.Int n ->
    PyStr.has_char c t = true -> int_char c = true).
  { intros neg t. unfold PyStr.int_unsigned.
    destruct (PyStr.prefix_b "_" t); [discriminate |].
    destruct (PyStr.scan_digits false 0 0 t) as [[[count value] rest] |] eqn:Hscan;
      [| discriminate].
    destruct (_ <? _); [discriminate |]. destruct (_ =? _); [discriminate |].
    destruct (PyStr.all_space rest) eqn:Hrest; [| discriminate].
    intros _ Hin.
    destruct (scan_digits_chars _ _ _ _ _ _ _ _ Hscan Hin) as [Hc | Hc];
      [exact Hc |].
    apply is_space_int_char. exact (all_space_chars _ _ Hrest Hc). }
  unfold PyStr.int, PyStr.int_literal.
  induction s as [| a s IH]; cbn [PyStr.lstrip_space PyStr.has_char];
    [discriminate |].
  destruct (PyStr.is_space a) eqn:Ha.
  - intros Hn Hin. destruct (Ascii.eqb_spec a c) as [<- | _];
      [apply is_space_int_char; exact Ha | exact (IH Hn Hin)].
  - intros Hn Hin.
    destruct (Ascii.eqb_spec a "-") as [-> | Hminus].
    { destruct (PyStr.int_unsigned true s) eqn:Hu; try discriminate.
      injection Hn as ->.
      destruct (Ascii.eqb_spec "-"%char c) as [<- | _]; [reflexivity |].
      exact (Hunsigned _ _ Hu Hin). }
    destruct (Ascii.eqb_spec a "+") as [-> | Hplus].
    { destruct (PyStr.int_unsigned false s) eqn:Hu; try discriminate.
      injection Hn as ->.
      destruct (Ascii.eqb_spec "+"%char c) as [<- | _]; [reflexivity |].
      exact (Hunsigned _ _ Hu Hin). }
    destruct (PyStr.int_unsigned false (String a s)) eqn:Hu; try discriminate.
    injection Hn as ->.
    apply (Hunsigned _ _ Hu). cbn [PyStr.has_char]. exact Hin.
Qed.

(** ** The numeric formatter *)


Lemma truthy_false (s : string) : PyStr.truthy s = false -> s = "".
Proof. destruct s; [reflexivity | discriminate]. Qed.

(** The early return of [format_token_balance]. *)
Lemma format_token_balance_early (quantity divisor : string) :
  quantity = "" \/ quantity = "0" ->
  format_token_balance quantity divisor = inr "0".
Proof. intros [-> | ->]; reflexivity. Qed.

(** Past the early return the function is its [try] block with the two
    handlers. *)
Lemma format_token_balance_late (quantity divisor : string) :
  quantity <> "" -> quantity <> "0" ->
  format_token_balance quantity divisor =
    match format_token_balance_body quantity divisor with
    | inl e =>
        if is_ValueError e || is_ZeroDivisionError e
        then inr ("Error formatting balance: " ++ exn_str e)
        else inl e
    | inr s => inr s
    end.
Proof.
  intros Hne H0. unfold format_token_balance.
  destruct (PyStr.truthy quantity) eqn:Ht.
  - destruct (String.eqb_spec quantity "0") as [-> | _]; [congruence | reflexivity].
  - apply truthy_false in Ht. congruence.
Qed.










(** C10, counterexample. A quantity of "0" with the non-numeric divisor
    "abc" is formatted as "0", which does not begin with
    "Error formatting balance:". *)
Lemma format_token_balance_zero_hides_bad_divisor :
  PyStr.int "abc" = None /\
  format_token_balance "0" "abc" = inr "0" /\
  PyStr.prefix_b "Error formatting balance:" "0" = false.
Proof. repeat split. Qed.

(** C10, amended. [format_token_balance] never raises on strings. An empty
    quantity and the quantity "0" give "0" whatever the divisor. A divisor
    that reads as zero leaves a numeric quantity undivided,
    [str(int(quantity))]. When the quantity is neither empty nor "0", a
    quantity or divisor that [int()] rejects yields a string that begins
    with "Error formatting balance:"; [int()] rejects every string that
    holds a character other than a digit, a blank, a sign and an
    underscore. *)
Theorem format_token_balance_total (quantity divisor : string) :
  (exists s, format_token_balance quantity divisor = inr s) /\
  (quantity = "" \/ quantity = "0" ->
   format_token_balance quantity divisor = inr "0") /\
  (forall q, PyStr.int quantity = Some q -> PyStr.int divisor = Some 0 ->
     format_token_balance quantity divisor = inr (PyStr.str q)) /\
  (quantity <> "" -> quantity <> "0" ->
   PyStr.int quantity = None \/ PyStr.int divisor = None ->
   exists msg,
     format_token_balance quantity divisor =
       inr ("Error formatting balance: " ++ msg)) /\
  (forall s c, PyStr.has_char c s = true -> int_char c = false ->
     PyStr.int s = None).
Proof.
  split; [| split; [| split; [| split]]].
  - unfold format_token_balance.
    destruct (negb (PyStr.truthy quantity) || String.eqb quantity "0");
      [eexists; reflexivity |].
    assert (Hstr : forall n,
      exists s,
        match Py.str n with
        | inl e =>
            if is_ValueError e || is_ZeroDivisionError e
            then inr ("Error formatting balance: " ++ exn_str e)
            else inl e
        | inr t => inr t
        end = (inr s : exn + string)).
    { intros n. destruct (py_str_total n) as [[t ->] | [msg ->]];
        eexists; reflexivity. }
    unfold format_token_balance_body, Py.int.
    destruct (PyStr.int_literal quantity); try (eexists; reflexivity).
    destruct (PyStr.int_literal divisor); try (eexists; reflexivity).
    destruct (_ =? 0); [apply Hstr |].
    destruct (_ =? 0); [apply Hstr |].
    destruct (py_str_total (n mod n0)) as [[fs ->] | [msg ->]];
      [| eexists; reflexivity].
    destruct (py_str_total n0) as [[ds ->] | [msg ->]];
      [| eexists; reflexivity].
    destruct (PyStr.truthy _); [| apply Hstr].
    destruct (py_str_total (n / n0)) as [[ws ->] | [msg ->]];
      eexists; reflexivity.
  - apply format_token_balance_early.
  - intros q Hq Hd.
    destruct (String.eqb_spec quantity "0") as [-> | H0].
    + injection Hq as <-. reflexivity.
    + assert (Hne : quantity <> "") by (intros ->; discriminate Hq).
      rewrite format_token_balance_late by assumption.
      unfold format_token_balance_body.
      rewrite (py_int_some _ _ Hq), (py_int_some _ _ Hd). cbn [Z.eqb].
      rewrite (py_str_within q (int_within _ _ Hq)). reflexivity.
  - intros Hne H0 Hbad.
    rewrite format_token_balance_late by assumption.
    unfold format_token_balance_body.
    destruct (PyStr.int quantity) as [q |] eqn:Hq.
    + destruct Hbad as [Hbad | Hbad]; [discriminate Hbad |].
      rewrite (py_int_some _ _ Hq).
      destruct (py_int_none _ Hbad) as [msg ->]. eexists; reflexivity.
    + destruct (py_int_none _ Hq) as [msg ->]. eexists; reflexivity.
  - intros s c Hin Hc.
    destruct (PyStr.int s) as [n |] eqn:Hs; [| reflexivity].
    rewrite (int_chars _ _ _ Hs Hin) in Hc. discriminate Hc.
Qed.

Lemma format_token_balance_total_witness :
  format_token_balance "" "1000" = inr "0" /\
  format_token_balance "12" "0" = inr "12" /\
  exists msg,
    format_token_balance "1.5" "10" = inr ("Error formatting balance: " ++ msg).
Proof.
  destruct (format_token_balance_total "" "1000") as (_ & Hearly & _).
  destruct (format_token_balance_total "12" "0") as (_ & _ & Hzero & _).
  destruct (format_token_balance_total "1.5" "10") as (_ & _ & _ & Herr & Hchar).
  split; [| split].
  - apply Hearly. left; reflexivity.
  - exact (Hzero 12 eq_refl eq_refl).
  - apply Herr; [discriminate | discriminate |].
    left. apply (Hchar "1.5" "."%char); reflexivity.
Defined.
(** C5. [format_usd_value(-5.0)] is "-$-5.00": the sign is prefixed and the
    signed value is formatted after it, so the minus sign appears twice,
    where the absolute value under the same rule gives "$5.00". The branches
    from one thousand up format the absolute value, as for -1500.0. *)
Theorem format_usd_value_doubles_sign :
  format_usd_value (PyFloat.of_Z (-5)) = "-$-5.00" /\
  format_usd_value (PyFloat.abs (PyFloat.of_Z (-5))) = "$5.00" /\
  format_usd_value (PyFloat.of_Z (-1500)) = "-$1.50K".
Proof. repeat split; vm_compute; reflexivity. Qed.

(** ** The client facade: construction *)

Lemma opt_truthy_default (o : option string) :
  opt_truthy o = true -> default "" o <> "".
Proof. destruct o as [[|c s]|]; simpl; congruence. Qed.

(** C8. Without an API key, neither as a parameter nor in
    [THEGRAPH_API_KEY], the constructor raises its [ValueError] at once and
    no request has been sent; with a key from either source it returns a
    client that carries a non-empty key, again without any request. *)
Theorem init_requires_api_key `{Environment} (api_key : option string) :
  (opt_truthy api_key = false ->
   opt_truthy (Eff.getenv "THEGRAPH_API_KEY") = false ->
   exists msg,
     run (TheGraphClient.__init__ api_key) = (Exc (ValueError msg), world0) /\
     msg <> "") /\
  (opt_truthy api_key = true \/
   opt_truthy (Eff.getenv "THEGRAPH_API_KEY") = true ->
   exists client,
     run (TheGraphClient.__init__ api_key) = (Ret client, world0) /\
     TheGraphClient.api_key client <> "").
Proof.
  unfold run, TheGraphClient.__init__, opt_or. split.
  - intros Hk He. rewrite Hk, He. simpl. eexists. split; [reflexivity | discriminate].
  - intros Hsome. destruct (opt_truthy api_key) eqn:Hk.
    + rewrite Hk. simpl. eexists. split; [reflexivity |].
      simpl. apply opt_truthy_default. exact Hk.
    + destruct Hsome as [Hsome | He]; [discriminate Hsome |].
      rewrite He. simpl. eexists. split; [reflexivity |].
      simpl. apply opt_truthy_default. exact He.
Qed.

Lemma init_requires_api_key_witness :
  (exists msg,
     run (@TheGraphClient.__init__ (Sample.scripted [] None) (Some "")) =
       (Exc (ValueError msg), world0) /\ msg <> "") /\
  (exists client,
     run (@TheGraphClient.__init__ (Sample.scripted [] (Some "jwt")) None) =
       (Ret client, world0) /\ TheGraphClient.api_key client <> "").
Proof.
  split.
  - apply (@init_requires_api_key (Sample.scripted [] None) (Some ""));
      reflexivity.
  - apply (@init_requires_api_key (Sample.scripted [] (Some "jwt")) None).
    right. reflexivity.
Defined.

(** ** Native balances *)

(** Unfolds the effect layer and nothing else. *)
Ltac eff :=
  cbv beta iota zeta delta
    [run Eff.try_ Eff.bind Eff.http_get Eff.lift Eff.ret Eff.raise
     Eff.raise_for_status Eff.sleep Eff.locals Eff.assign Eff.call
     Eff.diverge world0 append_token next_page];
  cbn [sent trace all_tokens page fst snd].

Lemma status_2xx_special (code : Z) :
  200 <= code <= 299 ->
  (code =? 401) = false /\ (code =? 403) = false /\ (code =? 429) = false /\
  ((200 <=? code) && (code <=? 299)) = true.
Proof.
  intros Hc. repeat split; try (apply Z.eqb_neq; lia).
  apply andb_true_intro. split; apply Z.leb_le; lia.
Qed.

Lemma resolved_key (api_key env_key : option string) :
  opt_truthy api_key = true \/ opt_truthy env_key = true ->
  opt_truthy (if negb (opt_truthy api_key) then env_key else api_key) = true.
Proof. destruct (opt_truthy api_key) eqn:Hk; simpl; intuition congruence. Qed.

(** In [get_native_balance_thegraph] the request parameters are never bound
    on the path of a supported network: with a key, every such call ends in
    the generic handler and no request is sent. *)
Lemma get_native_balance_thegraph_unbound `{PyRuntime} `{Environment}
    (address network : string) (api_key : option string) (chain_info : ChainInfo.t) :
  opt_truthy api_key = true \/ opt_truthy (Eff.getenv "THEGRAPH_API_KEY") = true ->
  get_chain_info network = Some chain_info ->
  run (get_native_balance_thegraph address network api_key) =
    (Ret (native_failure
       "Error fetching native balance: cannot access local variable 'query_params' where it is not associated with a value"
       (ChainInfo.native_symbol chain_info)), world0).
Proof.
  intros Hkey Hci. unfold run, get_native_balance_thegraph.
  rewrite (resolved_key _ _ Hkey), Hci. reflexivity.
Qed.




(** ** Lookup by symbol *)

(** C6. With one page that holds a token stored as "USDC" and a query for
    "usdc": the facade and the Ethereum function return that single record,
    but [get_token_balance_thegraph] returns the whole listing
    [{"tokens": [...], "error": None}], because the key "error" is always
    present in it. *)
Theorem by_symbol_returns_listing :
  let env := Sample.scripted [Sample.ok [Sample.token "USDC" "1500000" 6]] None in
  fst (run (@get_token_balance_thegraph Sample.runtime env 5
              Sample.address "usdc" "ethereum" (Some "jwt"))) =
    Ret (tokens_result [Sample.usdc_record] PNone) /\
  fst (run (@get_token_balance_ethereum_thegraph Sample.runtime env 5
              Sample.address "usdc" (Some "jwt"))) = Ret Sample.usdc_record /\
  (exists token,
     fst (run (@TheGraphClient.get_token_balance_by_symbol Sample.runtime env 5
                 Sample.client Sample.address "usdc" "ethereum")) = Ret (Some token) /\
     TokenBalance.token_symbol token = "USDC") /\
  snd (run (@get_token_balance_thegraph Sample.runtime env 5
              Sample.address "usdc" "ethereum" (Some "jwt"))) =
    snd (run (@get_all_token_balances_thegraph Sample.runtime env 5
                Sample.address "ethereum" (Some "jwt"))).
Proof.
  repeat split; try (vm_compute; reflexivity).
  eexists. split; vm_compute; reflexivity.
Qed.

(** ** Errors in the middle of a pagination *)

(** C1. After a first page of ten items, a 401 answer to the second page
    makes both dictionary clients return an empty token list with the
    authentication error: the ten tokens are dropped. A 500 answer at the
    same place returns the ten tokens with its error. *)
Theorem auth_failure_drops_fetched_tokens :
  let denied := Sample.scripted [Sample.ok Sample.ten_tokens; Sample.status 401] None in
  let broken := Sample.scripted [Sample.ok Sample.ten_tokens; Sample.status 500] None in
  let auth_error :=
    PStr "The Graph API authentication failed. Please check your API key." in
  fst (run (@get_all_token_balances_thegraph Sample.runtime denied 5
              Sample.address "ethereum" (Some "jwt"))) =
    Ret (tokens_result [] auth_error) /\
  fst (run (@get_multiple_token_balances_ethereum_thegraph Sample.runtime denied 5
              Sample.address None (Some "jwt"))) =
    Ret (tokens_result [] auth_error) /\
  (exists tokens,
     fst (run (@get_all_token_balances_thegraph Sample.runtime broken 5
                 Sample.address "ethereum" (Some "jwt"))) =
       Ret (tokens_result tokens (PStr "HTTP error! status: 500")) /\
     fst (run (@get_multiple_token_balances_ethereum_thegraph Sample.runtime broken 5
                 Sample.address None (Some "jwt"))) =
       Ret (tokens_result tokens (PStr "HTTP error! status: 500")) /\
     length tokens = 10%nat).
Proof.
  repeat split; try (vm_compute; reflexivity).
  eexists. repeat split; vm_compute; reflexivity.
Qed.

(** ** The pagination loops *)

(** Closes the case of an iteration that ends the call. *)
Ltac ends_call :=
  eff; eexists _, _;
  (split; [rewrite <- ?app_assoc; reflexivity | first [discriminate | reflexivity]]).

Section Pagination.
Context `{PyRuntime} `{Environment}.

Lemma paging_eta {T} (l : paging T) :
  {| all_tokens := all_tokens l; page := page l |} = l.
Proof. destruct l; reflexivity. Qed.

(** A loop over the items of a page whose body appends what [convert]
    keeps and raises what it raises. *)
Lemma for_each_appended (convert : pyval -> exn + option pyval)
    (body : pyval -> M (paging pyval) unit) (items : list pyval)
    (l : paging pyval) (w : world) :
  (forall balance l w,
     body balance l w =
       match convert balance with
       | inl e => (Exc e, l, w)
       | inr (Some t) => (Ret tt, append_token t l, w)
       | inr None => (Ret tt, l, w)
       end) ->
  Eff.for_each items body l w =
    (match snd (appended convert items) with
     | None => Ret tt
     | Some e => Exc e
     end,
     {| all_tokens := all_tokens l ++ fst (appended convert items);
        page := page l |},
     w).
Proof.
  intros Hbody. revert l. induction items as [|balance rest IH]; intros l.
  - simpl. rewrite app_nil_r, paging_eta. reflexivity.
  - cbn [Eff.for_each appended]. unfold Eff.bind. rewrite Hbody.
    destruct (convert balance) as [e | [t |]].
    + cbn [fst snd]. rewrite app_nil_r, paging_eta. reflexivity.
    + rewrite IH. destruct (appended convert rest) as [ts e].
      cbn [fst snd append_token all_tokens page].
      rewrite <- app_assoc. reflexivity.
    + rewrite IH. destruct (appended convert rest) as [ts e]. reflexivity.
Qed.

(** One iteration of [get_all_token_balances_thegraph]: it never raises,
    it sends one request for the current page after the 200 ms pause, and
    it moves to the next page only by falling through after an answer
    that is not a 429; after a 429 it pauses five seconds and keeps the
    page and the tokens. *)
Lemma thegraph_page_step (chain_info : ChainInfo.t)
    (account_address api_key : string) (l : paging pyval) (w : world) :
  let req := thegraph_request chain_info account_address api_key (page l) in
  let limited := rate_limited (upstream (sent w) req) in
  exists c l',
    thegraph_page chain_info account_address api_key l w =
      (Ret c, l',
       {| sent := S (sent w);
          trace := trace w ++
                   Sleep 200 :: Send req :: (if limited then [Sleep 5000] else []) |}) /\
    (if limited then c = Eff.Next /\ l' = l
     else c = Eff.Next -> page l' = page l + 1).
Proof.
  intros req limited. subst limited. unfold thegraph_page. eff.
  fold (thegraph_request chain_info account_address api_key (page l)). fold req.
  unfold rate_limited.
  destruct (upstream (sent w) req) as [e | resp] eqn:Hup.
  - destruct e; ends_call.
  - eff.
    destruct (Z.eqb_spec (status_code resp) 401) as [H401 | H401].
    { rewrite H401. ends_call. }
    destruct (Z.eqb_spec (status_code resp) 403) as [H403 | H403].
    { rewrite H403. ends_call. }
    destruct (Z.eqb_spec (status_code resp) 429) as [H429 | H429].
    { eff. eexists _, _. split; [rewrite <- !app_assoc; reflexivity | ].
      split; reflexivity. }
    eff.
    destruct ((200 <=? status_code resp) && (status_code resp <=? 299));
      [| ends_call].
    eff.
    destruct (json resp) as [e | data];
      [destruct e; ends_call |].
    eff.
    destruct (Py.get data "data" PNone) as [e | d] eqn:Hget;
      [destruct e; ends_call |].
    eff.
    destruct (Py.truthy d);
      [| ends_call].
    cbn [negb]. eff.
    destruct (Py.item data "data") as [e | d'];
      [destruct e; ends_call |].
    eff.
    destruct (Py.iter d') as [e | items];
      [destruct e; ends_call |].
    eff.
    rewrite (for_each_appended (thegraph_item chain_info))
      by (intros; unfold thegraph_item; destruct (token_data _ _ _); reflexivity).
    destruct (snd (appended (thegraph_item chain_info) items)) as [e |];
      [destruct e; ends_call |].
    eff.
    destruct (Py.len d') as [e | n];
      [destruct e; ends_call |].
    eff.
    destruct (n <? 10); ends_call.
Qed.

(** One iteration of [get_multiple_token_balances_ethereum_thegraph], in
    the same terms, with its pauses of 500 ms and ten seconds. *)
Lemma ethereum_page_step (account_address : string)
    (token_symbols : option (list string)) (api_key : string)
    (l : paging pyval) (w : world) :
  let req := ethereum_request account_address api_key (page l) in
  let limited := rate_limited (upstream (sent w) req) in
  exists c l',
    ethereum_page account_address token_symbols api_key l w =
      (Ret c, l',
       {| sent := S (sent w);
          trace := trace w ++
                   Sleep 500 :: Send req :: (if limited then [Sleep 10000] else []) |}) /\
    (if limited then c = Eff.Next /\ l' = l
     else c = Eff.Next -> page l' = page l + 1).
Proof.
  intros req limited. subst limited. unfold ethereum_page. eff.
  fold (ethereum_request account_address api_key (page l)). fold req.
  unfold rate_limited.
  destruct (upstream (sent w) req) as [e | resp] eqn:Hup.
  - destruct e; ends_call.
  - eff.
    destruct (Z.eqb_spec (status_code resp) 401) as [H401 | H401].
    { rewrite H401. ends_call. }
    destruct (Z.eqb_spec (status_code resp) 403) as [H403 | H403].
    { rewrite H403. ends_call. }
    destruct (Z.eqb_spec (status_code resp) 429) as [H429 | H429].
    { eff. eexists _, _. split; [rewrite <- !app_assoc; reflexivity | ].
      split; reflexivity. }
    eff.
    destruct ((200 <=? status_code resp) && (status_code resp <=? 299));
      [| ends_call].
    eff.
    destruct (json resp) as [e | data]; [destruct e; ends_call |].
    eff.
    destruct (Py.get data "data" PNone) as [e | d] eqn:Hget;
      [destruct e; ends_call |].
    eff.
    destruct (Py.truthy d); cbn [negb]; [| ends_call].
    eff.
    destruct (Py.item data "data") as [e | d']; [destruct e; ends_call |].
    eff.
    destruct (Py.len d') as [e | n]; [destruct e; ends_call |].
    eff.
    destruct (n =? 0); [ends_call |].
    eff.
    destruct (Py.iter d') as [e | items]; [destruct e; ends_call |].
    eff.
    rewrite (for_each_appended (ethereum_item token_symbols))
      by (intros; unfold ethereum_item; destruct (token_data _ _ _);
          [reflexivity | destruct (symbol_selected _ _) as [? | []]; reflexivity]).
    destruct (snd (appended (ethereum_item token_symbols) items)) as [e |];
      [destruct e; ends_call |].
    eff.
    destruct (n <? 10); ends_call.
Qed.

(** A loop whose every iteration sends one paced request: the trace it
    adds keeps the discipline [paced], on any fuel. *)
Lemma while_paced {R} (delay cooldown : Z) (cond : paging pyval -> bool)
    (body : M (paging pyval) (Eff.ctl R)) (request_for : Z -> request) :
  (forall p, req_page (request_for p) = p) ->
  (forall l w,
     let req := request_for (page l) in
     let limited := rate_limited (upstream (sent w) req) in
     exists c l',
       body l w =
         (Ret c, l',
          {| sent := S (sent w);
             trace := trace w ++
                      Sleep delay :: Send req ::
                      (if limited then [Sleep cooldown] else []) |}) /\
       (if limited then c = Eff.Next /\ l' = l
        else c = Eff.Next -> page l' = page l + 1)) ->
  forall fuel l w,
    exists tr,
      trace (snd (Eff.while fuel cond body l w)) = (trace w ++ tr)%list /\
      paced delay cooldown (sent w) (page l) tr.
Proof.
  intros Hpage Hstep fuel.
  induction fuel as [|fuel IH]; intros l w.
  - exists []. split; [symmetry; apply app_nil_r | exact I].
  - cbn [Eff.while]. eff.
    destruct (cond l); [| exists []; split; [symmetry; apply app_nil_r | exact I]].
    destruct (Hstep l w) as (c & l' & Hbody & Hnext). rewrite Hbody.
    destruct (rate_limited (upstream (sent w) (request_for (page l)))) eqn:Hlim.
    + destruct Hnext as [-> ->].
      destruct (IH l {| sent := S (sent w);
                        trace := trace w ++
                          [Sleep delay; Send (request_for (page l)); Sleep cooldown] |})
        as (tr & Htr & Hpaced).
      exists ([Sleep delay; Send (request_for (page l)); Sleep cooldown] ++ tr)%list.
      split.
      * rewrite Htr. cbn [trace]. rewrite <- app_assoc. reflexivity.
      * cbn [paced app]. rewrite Hlim, Hpage. repeat split.
        exact Hpaced.
    + destruct c as [| | r].
      * specialize (Hnext eq_refl).
        destruct (IH l' {| sent := S (sent w);
                           trace := trace w ++
                             [Sleep delay; Send (request_for (page l))] |})
          as (tr & Htr & Hpaced).
        exists ([Sleep delay; Send (request_for (page l))] ++ tr)%list.
        split.
        -- rewrite Htr. cbn [trace]. rewrite <- app_assoc. reflexivity.
        -- cbn [paced app]. rewrite Hlim, Hpage. repeat split.
           cbn [sent] in Hpaced. rewrite Hnext in Hpaced. exact Hpaced.
      * exists [Sleep delay; Send (request_for (page l))].
        split; [reflexivity |].
        cbn [paced]. rewrite Hlim, Hpage. repeat split.
      * exists [Sleep delay; Send (request_for (page l))].
        split; [reflexivity |].
        cbn [paced]. rewrite Hlim, Hpage. repeat split.
Qed.

(** A loop whose every iteration sends one paced request and goes on
    after a 429 answer: the trace it adds is the one that [follows]
    describes, request by request, as long as the fuel lasts. *)
Lemma while_follows {R} (delay cooldown : Z) (cond : paging pyval -> bool)
    (body : M (paging pyval) (Eff.ctl R)) (request_for : Z -> request) :
  (forall l w,
     let req := request_for (page l) in
     let limited := rate_limited (upstream (sent w) req) in
     exists c l',
       body l w =
         (Ret c, l',
          {| sent := S (sent w);
             trace := trace w ++
                      Sleep delay :: Send req ::
                      (if limited then [Sleep cooldown] else []) |}) /\
       (if limited then c = Eff.Next /\ l' = l
        else c = Eff.Next -> page l' = page l + 1)) ->
  forall fuel l w,
    exists tr,
      trace (snd (Eff.while fuel cond body l w)) = (trace w ++ tr)%list /\
      if cond l
      then follows request_for delay cooldown fuel (sent w) (page l) tr
      else tr = [].
Proof.
  intros Hstep fuel.
  induction fuel as [|fuel IH]; intros l w.
  - exists []. split; [symmetry; apply app_nil_r |].
    destruct (cond l); reflexivity.
  - cbn [Eff.while]. eff.
    destruct (cond l) eqn:Hcond;
      [| exists []; split; [symmetry; apply app_nil_r | reflexivity]].
    destruct (Hstep l w) as (c & l' & Hbody & Hnext). rewrite Hbody.
    destruct (rate_limited (upstream (sent w) (request_for (page l)))) eqn:Hlim.
    + destruct Hnext as [-> ->].
      destruct (IH l {| sent := S (sent w);
                        trace := trace w ++
                          [Sleep delay; Send (request_for (page l)); Sleep cooldown] |})
        as (tr & Htr & Hfollows).
      rewrite Hcond in Hfollows. cbn [sent] in Hfollows.
      exists ([Sleep delay; Send (request_for (page l)); Sleep cooldown] ++ tr)%list.
      split.
      * rewrite Htr. cbn [trace]. rewrite <- app_assoc. reflexivity.
      * cbn [follows app]. eexists. split; [reflexivity |].
        rewrite Hlim. eexists. split; [reflexivity | exact Hfollows].
    + destruct c as [| | r].
      * specialize (Hnext eq_refl).
        destruct (IH l' {| sent := S (sent w);
                           trace := trace w ++
                             [Sleep delay; Send (request_for (page l))] |})
          as (tr & Htr & Hfollows).
        cbn [sent] in Hfollows. rewrite Hnext in Hfollows.
        exists ([Sleep delay; Send (request_for (page l))] ++ tr)%list.
        split.
        -- rewrite Htr. cbn [trace]. rewrite <- app_assoc. reflexivity.
        -- cbn [follows app]. eexists. split; [reflexivity |].
           rewrite Hlim.
           destruct (cond l'); [right; exact Hfollows | left; exact Hfollows].
      * exists [Sleep delay; Send (request_for (page l))].
        split; [reflexivity |].
        cbn [follows]. eexists. split; [reflexivity |].
        rewrite Hlim. left; reflexivity.
      * exists [Sleep delay; Send (request_for (page l))].
        split; [reflexivity |].
        cbn [follows]. eexists. split; [reflexivity |].
        rewrite Hlim. left; reflexivity.
Qed.

(** C7. With a key, the trace of [get_all_token_balances_thegraph] on a
    supported network and the trace of
    [get_multiple_token_balances_ethereum_thegraph] are what [follows]
    describes, on any fuel and against any upstream: the first iteration
    pauses and requests page 1; after a 429 answer the longer pause follows
    (5 s after the 0.2 s delay, 10 s after the 0.5 s delay) and the next
    iteration requests the same page again; after any other answer the loop
    stops or requests the next page. So the pages are requested in
    increasing order from page 1, and a page is requested again only after
    a 429 answer to it. Without these assumptions the traces still keep the
    discipline [paced]. *)
Theorem pages_requested_in_order (fuel : nat) (account_address network : string)
    (token_symbols : option (list string)) (api_key : option string)
    (chain_info : ChainInfo.t) :
  let key :=
    default "" (if negb (opt_truthy api_key)
                then Eff.getenv "THEGRAPH_API_KEY" else api_key) in
  (opt_truthy api_key = true \/
   opt_truthy (Eff.getenv "THEGRAPH_API_KEY") = true ->
   get_chain_info network = Some chain_info ->
   follows (thegraph_request chain_info account_address key) 200 5000 fuel 0 1
     (trace (snd (run (get_all_token_balances_thegraph fuel account_address
                         network api_key))))) /\
  (opt_truthy api_key = true \/
   opt_truthy (Eff.getenv "THEGRAPH_API_KEY") = true ->
   follows (ethereum_request account_address key) 500 10000 fuel 0 1
     (trace (snd (run (get_multiple_token_balances_ethereum_thegraph fuel
                         account_address token_symbols api_key))))) /\
  paced 200 5000 0 1
    (trace (snd (run (get_all_token_balances_thegraph fuel account_address
                        network api_key)))) /\
  paced 500 10000 0 1
    (trace (snd (run (get_multiple_token_balances_ethereum_thegraph fuel
                        account_address token_symbols api_key)))) /\
  200 < 5000 /\ 500 < 10000.
Proof.
  intros key. subst key.
  split; [| split; [| split; [| split; [| lia]]]].
  - intros Hkey Hci. unfold get_all_token_balances_thegraph.
    rewrite (resolved_key _ _ Hkey), Hci. cbn [negb]. eff.
    match goal with
    | |- context [Eff.while fuel ?c ?b ?l ?w] =>
        destruct (while_follows 200 5000 c b
                    (thegraph_request chain_info account_address
                       (default "" (if negb (opt_truthy api_key)
                                    then Eff.getenv "THEGRAPH_API_KEY"
                                    else api_key)))
                    (thegraph_page_step chain_info account_address _)
                    fuel l w) as (tr & Htr & Hfollows);
        destruct (Eff.while fuel c b l w) as [[r l'] w'] eqn:Hrun
    end.
    cbn [snd trace app sent page] in Htr, Hfollows. subst tr.
    destruct r as [[v |] | e |]; exact Hfollows.
  - intros Hkey. unfold get_multiple_token_balances_ethereum_thegraph.
    rewrite (resolved_key _ _ Hkey). cbn [negb]. eff.
    match goal with
    | |- context [Eff.while fuel ?c ?b ?l ?w] =>
        destruct (while_follows 500 10000 c b
                    (ethereum_request account_address
                       (default "" (if negb (opt_truthy api_key)
                                    then Eff.getenv "THEGRAPH_API_KEY"
                                    else api_key)))
                    (ethereum_page_step account_address token_symbols _)
                    fuel l w) as (tr & Htr & Hfollows);
        destruct (Eff.while fuel c b l w) as [[r l'] w'] eqn:Hrun
    end.
    cbn [snd trace app sent page] in Htr, Hfollows.
    change (1 <=? max_pages) with true in Hfollows. cbv iota in Hfollows.
    subst tr.
    destruct r as [[v |] | e |]; [| destruct (_ <? _) | |]; exact Hfollows.
  - unfold get_all_token_balances_thegraph.
    destruct (negb (opt_truthy _)); [exact I |].
    destruct (get_chain_info network) as [ci |]; [| exact I].
    eff.
    match goal with
    | |- context [Eff.while fuel ?c ?b ?l ?w] =>
        destruct (while_paced 200 5000 c b
                    (thegraph_request ci account_address
                       (default "" (if negb (opt_truthy api_key)
                                    then Eff.getenv "THEGRAPH_API_KEY"
                                    else api_key)))
                    (fun p => eq_refl)
                    (thegraph_page_step ci account_address _)
                    fuel l w) as (tr & Htr & Hpaced);
        destruct (Eff.while fuel c b l w) as [[r l'] w'] eqn:Hrun
    end.
    cbn [snd trace app] in Htr. subst tr.
    destruct r as [[v |] | e |]; exact Hpaced.
  - unfold get_multiple_token_balances_ethereum_thegraph.
    destruct (negb (opt_truthy _)); [exact I |].
    eff.
    match goal with
    | |- context [Eff.while fuel ?c ?b ?l ?w] =>
        destruct (while_paced 500 10000 c b
                    (ethereum_request account_address
                       (default "" (if negb (opt_truthy api_key)
                                    then Eff.getenv "THEGRAPH_API_KEY"
                                    else api_key)))
                    (fun p => eq_refl)
                    (ethereum_page_step account_address token_symbols _)
                    fuel l w) as (tr & Htr & Hpaced);
        destruct (Eff.while fuel c b l w) as [[r l'] w'] eqn:Hrun
    end.
    cbn [snd trace app] in Htr. subst tr.
    destruct r as [[v |] | e |]; [| destruct (_ <? _) | |]; exact Hpaced.
Qed.

End Pagination.

Lemma pages_requested_in_order_witness :
  let env :=
    Sample.scripted [Sample.status 429; Sample.ok Sample.ten_tokens;
                     Sample.ok [Sample.token "USDC" "1500000" 6]] None in
  let mainnet :=
    {| ChainInfo.chain_id := "1"; ChainInfo.name := "Ethereum";
       ChainInfo.native_symbol := "ETH"; ChainInfo.network_name := "mainnet" |} in
  follows (H := env) (thegraph_request mainnet Sample.address "jwt") 200 5000 5 0 1
    (trace (snd (run (@get_all_token_balances_thegraph Sample.runtime env 5
                        Sample.address "ethereum" (Some "jwt"))))) /\
  trace (snd (run (@get_all_token_balances_thegraph Sample.runtime env 5
                     Sample.address "ethereum" (Some "jwt")))) =
    [Sleep 200; Send (thegraph_request mainnet Sample.address "jwt" 1);
     Sleep 5000;
     Sleep 200; Send (thegraph_request mainnet Sample.address "jwt" 1);
     Sleep 200; Send (thegraph_request mainnet Sample.address "jwt" 2)].
Proof.
  intros env mainnet.
  pose proof (@pages_requested_in_order Sample.runtime env 5 Sample.address
                "ethereum" None (Some "jwt") mainnet) as Hthm.
  cbv zeta in Hthm. destruct Hthm as [Hfollows _].
  split.
  - apply Hfollows; [left; reflexivity | reflexivity].
  - vm_compute. reflexivity.
Defined.

(** ** The page ceiling *)

Section Ceiling.
Context `{PyRuntime} `{Environment}.

(** A full page makes the Ethereum loop append its tokens and move on. *)
Lemma ethereum_page_full (account_address : string)
    (token_symbols : option (list string)) (api_key : string)
    (items : list pyval) (l : paging pyval) (w : world) :
  full_page token_symbols
    (upstream (sent w) (ethereum_request account_address api_key (page l))) items ->
  ethereum_page account_address token_symbols api_key l w =
    (Ret Eff.Next,
     {| all_tokens :=
          all_tokens l ++ fst (appended (ethereum_item token_symbols) items);
        page := page l + 1 |},
     {| sent := S (sent w);
        trace := trace w ++
                 [Sleep 500;
                  Send (ethereum_request account_address api_key (page l))] |}).
Proof.
  intros (resp & body & Hup & Hst & Hjson & Hdata & Hlen & Hok).
  destruct (status_2xx_special _ Hst) as (H401 & H403 & H429 & H2xx).
  unfold ethereum_page. eff.
  fold (ethereum_request account_address api_key (page l)).
  rewrite Hup. eff. rewrite H401, H403, H429. eff. rewrite H2xx. eff.
  rewrite Hjson. eff.
  unfold Py.get, Py.item, Dict.get_default. rewrite Hdata. eff.
  assert (Htruthy : Py.truthy (PList items) = true)
    by (destruct items; [simpl in Hlen; lia | reflexivity]).
  rewrite Htruthy. cbn [negb Py.len Py.iter]. eff.
  assert (Hne : (Z.of_nat (length items) =? 0) = false)
    by (apply Z.eqb_neq; lia).
  rewrite Hne. eff.
  rewrite (for_each_appended (ethereum_item token_symbols))
    by (intros; unfold ethereum_item; destruct (token_data _ _ _);
        [reflexivity | destruct (symbol_selected _ _) as [? | []]; reflexivity]).
  rewrite Hok. eff.
  assert (Hfull : (Z.of_nat (length items) <? 10) = false)
    by (apply Z.ltb_ge; lia).
  rewrite Hfull. eff. rewrite <- !app_assoc. reflexivity.
Qed.

(** Against full pages the Ethereum loop runs through the pages that are
    left below the ceiling and then leaves by its condition. *)
Lemma ethereum_loop_full (account_address : string)
    (token_symbols : option (list string)) (api_key : string)
    (pages : nat -> list pyval) :
  (forall n r, full_page token_symbols (upstream n r) (pages n)) ->
  forall (left : nat) (fuel : nat) (l : paging pyval) (w : world),
    page l = max_pages + 1 - Z.of_nat left ->
    (left < fuel)%nat ->
    exists tr,
      Eff.while fuel (fun l => page l <=? max_pages)
        (ethereum_page account_address token_symbols api_key) l w =
      (Ret None,
       {| all_tokens := all_tokens l ++ gathered token_symbols pages (sent w) left;
          page := max_pages + 1 |},
       {| sent := sent w + left; trace := tr |}).
Proof.
  intros Hfull left.
  induction left as [|left IH]; intros fuel l w Hpage Hfuel.
  - destruct fuel as [|fuel]; [lia |].
    cbn [Eff.while]. eff.
    assert (Hcond : (page l <=? max_pages) = false)
      by (apply Z.leb_gt; lia).
    rewrite Hcond. exists (trace w). unfold gathered. cbn [seq flat_map].
    rewrite app_nil_r, Nat.add_0_r.
    replace (max_pages + 1) with (page l) by lia.
    rewrite paging_eta. destruct w; reflexivity.
  - destruct fuel as [|fuel]; [lia |].
    cbn [Eff.while]. eff.
    assert (Hcond : (page l <=? max_pages) = true)
      by (apply Z.leb_le; lia).
    rewrite Hcond.
    rewrite (ethereum_page_full _ _ _ (pages (sent w))) by apply Hfull.
    edestruct (IH fuel) as (tr & Hrun); [| | rewrite Hrun].
    + cbn [page]. lia.
    + lia.
    + exists tr. cbn [all_tokens sent]. unfold gathered.
      cbn [seq flat_map]. rewrite <- app_assoc.
      replace (S (sent w) + left)%nat with (sent w + S left)%nat by lia.
      reflexivity.
Qed.

(** Items with fewer than [max_str_digits] decimals are all converted. *)
Lemma token_balances_within (chain_info : ChainInfo.t)
    (data : list TheGraphTokenBalance.t) :
  Forall (fun balance =>
            TheGraphTokenBalance.decimals balance < PyStr.max_str_digits) data ->
  exists tokens,
    TheGraphClient.token_balances chain_info data = inr tokens /\
    length tokens = length data.
Proof.
  induction 1 as [| balance rest Hd _ (tokens & IH & Hlen)].
  - exists []. split; reflexivity.
  - cbn [TheGraphClient.token_balances]. rewrite IH.
    unfold TheGraphClient.token_balance.
    set (decimals := if TheGraphTokenBalance.decimals balance =? 0 then 18
                     else TheGraphTokenBalance.decimals balance).
    assert (Hdec : decimals < PyStr.max_str_digits)
      by (subst decimals; destruct (_ =? 0); [reflexivity | exact Hd]).
    destruct (Z.leb_spec 0 decimals) as [Hpos |].
    + rewrite py_str_within.
      * eexists. split; [reflexivity |]. cbn [length]. congruence.
      * rewrite Z.abs_eq by (apply Z.pow_nonneg; lia).
        rewrite len_str_pow10 by exact Hpos. lia.
    + eexists. split; [reflexivity |]. cbn [length]. congruence.
Qed.

(** A full page makes the facade loop extend its list and move on. *)
Lemma all_tokens_page_full (self : TheGraphClient.t) (address network : string)
    (chain_info : ChainInfo.t) (data : list TheGraphTokenBalance.t)
    (l : paging TokenBalance.t) (w : world) :
  get_chain_info network = Some chain_info ->
  (forall r, full_page_validated (upstream (sent w) r) data) ->
  exists tokens tr,
    TheGraphClient.token_balances chain_info data = inr tokens /\
    TheGraphClient.all_tokens_page self address network l w =
      (Ret Eff.Next,
       {| all_tokens := all_tokens l ++ tokens; page := page l + 1 |},
       {| sent := S (sent w); trace := tr |}).
Proof.
  intros Hci Hfull.
  unfold TheGraphClient.all_tokens_page, TheGraphClient.get_token_balances.
  rewrite Hci. eff.
  match goal with
  | |- context [upstream (sent w) ?r] =>
      destruct (Hfull r) as (resp & j & Hup & Hst & Hjson & Hval & Hlen & Hdec);
      rewrite Hup
  end.
  destruct (status_2xx_special _ Hst) as (_ & _ & _ & H2xx).
  destruct (token_balances_within chain_info data Hdec) as (tokens & Htokens & Hsame).
  eff. rewrite H2xx. eff. rewrite Hjson. eff. rewrite Hval. eff.
  rewrite Htokens. eff.
  destruct tokens as [| token tokens]; [simpl in Hsame; lia |].
  eff.
  assert (Hten : (Z.of_nat (length (token :: tokens))
                  <? TheGraphClient.DEFAULT_LIMIT) = false).
  { apply Z.ltb_ge. rewrite Hsame. unfold TheGraphClient.DEFAULT_LIMIT. lia. }
  rewrite Hten. eff. eexists _, _. split; reflexivity.
Qed.

(** Against full pages the facade loop uses up any fuel. *)
Lemma facade_loop_full (self : TheGraphClient.t) (address network : string)
    (chain_info : ChainInfo.t) (data : nat -> list TheGraphTokenBalance.t) :
  get_chain_info network = Some chain_info ->
  (forall n r, full_page_validated (upstream n r) (data n)) ->
  forall (fuel : nat) (l : paging TokenBalance.t) (w : world),
    exists l' tr,
      Eff.while fuel (fun _ => true)
        (TheGraphClient.all_tokens_page self address network) l w =
      (OutOfFuel, l', {| sent := sent w + fuel; trace := tr |}).
Proof.
  intros Hci Hfull fuel.
  induction fuel as [|fuel IH]; intros l w.
  - exists l, (trace w). cbn [Eff.while]. eff. rewrite Nat.add_0_r.
    destruct w; reflexivity.
  - cbn [Eff.while]. eff.
    destruct (all_tokens_page_full self address network chain_info
                (data (sent w)) l w Hci (Hfull (sent w)))
      as (tokens & tr1 & _ & Hpage).
    rewrite Hpage.
    match goal with
    | |- context [Eff.while fuel _ _ ?l1 ?w1] =>
        destruct (IH l1 w1) as (l' & tr & Hrun); rewrite Hrun
    end.
    exists l', tr. cbn [sent].
    replace (S (sent w) + fuel)%nat with (sent w + S fuel)%nat by lia.
    reflexivity.
Qed.

(** C2, amended. Against an upstream that always answers with a full
    page, [get_multiple_token_balances_ethereum_thegraph] stops after its
    ceiling of 50 pages, on any fuel above 50: it has sent 50 requests and
    returns the tokens gathered from them with a non-empty error that
    names the maximum page limit. The facade's [get_all_token_balances]
    has no ceiling: against such an upstream it is still running after any
    number of pages. *)
Theorem page_ceiling (account_address network : string)
    (token_symbols : option (list string)) (api_key : option string)
    (self : TheGraphClient.t) (chain_info : ChainInfo.t)
    (pages : nat -> list pyval) (data : nat -> list TheGraphTokenBalance.t) :
  (opt_truthy api_key = true \/
   opt_truthy (Eff.getenv "THEGRAPH_API_KEY") = true ->
   (forall n r, full_page token_symbols (upstream n r) (pages n)) ->
   forall fuel, (50 < fuel)%nat ->
     exists msg w,
       run (get_multiple_token_balances_ethereum_thegraph fuel account_address
              token_symbols api_key) =
         (Ret (tokens_result (gathered token_symbols pages 0 50) (PStr msg)), w) /\
       PyStr.contains "maximum page limit (50)" msg = true /\
       msg <> "" /\
       sent w = 50%nat) /\
  (get_chain_info network = Some chain_info ->
   (forall n r, full_page_validated (upstream n r) (data n)) ->
   forall fuel,
     exists w,
       run (TheGraphClient.get_all_token_balances fuel self account_address
              network) = (OutOfFuel, w) /\
       sent w = fuel).
Proof.
  split.
  - intros Hkey Hfull fuel Hfuel.
    unfold get_multiple_token_balances_ethereum_thegraph.
    rewrite (resolved_key _ _ Hkey). cbn [negb]. eff.
    match goal with
    | |- context [Eff.while fuel ?c (ethereum_page ?a ?t ?k) ?l ?w] =>
        destruct (ethereum_loop_full a t k pages Hfull 50 fuel l w)
          as (tr & Hrun); [reflexivity | exact Hfuel | rewrite Hrun]
    end.
    eff.
    change (max_pages <? max_pages + 1) with true. cbv iota.
    eexists _, _. split; [reflexivity |].
    split; [vm_compute; reflexivity |].
    split; [discriminate | reflexivity].
  - intros Hci Hfull fuel.
    unfold TheGraphClient.get_all_token_balances. eff.
    match goal with
    | |- context [Eff.while fuel ?c ?b ?l ?w] =>
        destruct (facade_loop_full self account_address network chain_info
                    data Hci Hfull fuel l w) as (l' & tr & Hrun);
        rewrite Hrun
    end.
    eexists. split; reflexivity.
Qed.

End Ceiling.

(** C2, counterexample. Against the upstream that answers every request
    with the same ten items, the facade's [get_all_token_balances] has sent
    150 requests on 150 units of fuel and has not returned. *)
Lemma facade_has_no_ceiling :
  exists w,
    run (@TheGraphClient.get_all_token_balances Sample.runtime
           (Sample.endless None) 150 Sample.client Sample.address "ethereum") =
      (OutOfFuel, w) /\
    sent w = 150%nat.
Proof. eexists. split; vm_compute; reflexivity. Qed.

Lemma sample_full_page :
  full_page (H := Sample.runtime) None (Sample.ok Sample.ten_tokens) Sample.ten_tokens.
Proof.
  eexists _, _. split; [reflexivity |].
  split; [simpl; lia |].
  split; [reflexivity |].
  split; [reflexivity |].
  split; [simpl; lia | vm_compute; reflexivity].
Qed.

Lemma sample_full_page_validated :
  full_page_validated (H := Sample.runtime) (Sample.ok Sample.ten_tokens)
    Sample.ten_validated.
Proof.
  eexists _, _. split; [reflexivity |].
  split; [simpl; lia |].
  split; [reflexivity |].
  split; [vm_compute; reflexivity |].
  split; [vm_compute; lia |].
  set (data := Sample.ten_validated). vm_compute in data. subst data.
  repeat (constructor; [reflexivity |]). constructor.
Qed.

Lemma page_ceiling_witness :
  (exists msg w,
     run (@get_multiple_token_balances_ethereum_thegraph Sample.runtime
            (Sample.endless None) 60 Sample.address None (Some "jwt")) =
       (Ret (tokens_result
               (gathered (H := Sample.runtime) None (fun _ => Sample.ten_tokens) 0 50)
               (PStr msg)), w) /\
     PyStr.contains "maximum page limit (50)" msg = true /\
     msg <> "" /\
     sent w = 50%nat) /\
  (exists w,
     run (@TheGraphClient.get_all_token_balances Sample.runtime
            (Sample.endless None) 7 Sample.client Sample.address "ethereum") =
       (OutOfFuel, w) /\
     sent w = 7%nat).
Proof.
  destruct (@page_ceiling Sample.runtime (Sample.endless None)
              Sample.address "ethereum" None (Some "jwt") Sample.client
              {| ChainInfo.chain_id := "1"; ChainInfo.name := "Ethereum";
                 ChainInfo.native_symbol := "ETH"; ChainInfo.network_name := "mainnet" |}
              (fun _ => Sample.ten_tokens) (fun _ => Sample.ten_validated))
    as [Hceiling Hfacade].
  split.
  - apply Hceiling; [left; reflexivity | | lia].
    intros n r. exact sample_full_page.
  - apply Hfacade; [reflexivity |].
    intros n r. exact sample_full_page_validated.
Defined.

(** ** What an iteration that ends the call returns *)

(** Closes the case of an iteration by naming its result. *)
Ltac names_result :=
  eff; eexists _, _, _; split; [reflexivity |]; split;
  [ first [ exists []; symmetry; apply app_nil_r
          | cbn [all_tokens]; eexists; reflexivity ]
  | intros v Hv;
    first
      [ discriminate Hv
      | injection Hv as <-; eexists; split; cycle 1;
        [ first [ left; reflexivity
                | right; split; [reflexivity | eauto] ]
        | intros Hmsg; simpl in Hmsg; discriminate Hmsg ] ] ].

Section Results.
Context `{PyRuntime} `{Environment}.

(** One iteration of [get_all_token_balances_thegraph] never raises and
    only adds tokens to the list; when it ends the call, the result carries
    a non-empty error and the list gathered so far, except after a 401 or
    403 answer, where the list in the result is empty. *)
Lemma thegraph_page_result (chain_info : ChainInfo.t)
    (account_address api_key : string) (l : paging pyval) (w : world) :
  let req := thegraph_request chain_info account_address api_key (page l) in
  exists c l' w',
    thegraph_page chain_info account_address api_key l w = (Ret c, l', w') /\
    (exists more, all_tokens l' = (all_tokens l ++ more)%list) /\
    (forall v, c = Eff.Return v ->
       exists msg, msg <> "" /\
         (v = tokens_result (all_tokens l') (PStr msg) \/
          v = tokens_result [] (PStr msg) /\
          exists resp,
            upstream (sent w) req = inr resp /\
            (status_code resp = 401 \/ status_code resp = 403))).
Proof.
  intros req. unfold thegraph_page. eff.
  fold (thegraph_request chain_info account_address api_key (page l)). fold req.
  destruct (upstream (sent w) req) as [e | resp] eqn:Hup.
  - destruct e; names_result.
  - eff.
    destruct (Z.eqb_spec (status_code resp) 401) as [H401 | H401];
      [names_result |].
    destruct (Z.eqb_spec (status_code resp) 403) as [H403 | H403];
      [names_result |].
    destruct (Z.eqb_spec (status_code resp) 429) as [H429 | H429];
      [names_result |].
    eff.
    destruct ((200 <=? status_code resp) && (status_code resp <=? 299));
      [| names_result].
    eff.
    destruct (json resp) as [e | data]; [destruct e; names_result |].
    eff.
    destruct (Py.get data "data" PNone) as [e | d]; [destruct e; names_result |].
    eff.
    destruct (Py.truthy d); cbn [negb]; [| names_result].
    eff.
    destruct (Py.item data "data") as [e | d']; [destruct e; names_result |].
    eff.
    destruct (Py.iter d') as [e | items]; [destruct e; names_result |].
    eff.
    rewrite (for_each_appended (thegraph_item chain_info))
      by (intros; unfold thegraph_item; destruct (token_data _ _ _); reflexivity).
    destruct (snd (appended (thegraph_item chain_info) items)) as [e |];
      [destruct e; names_result |].
    eff.
    destruct (Py.len d') as [e | n]; [destruct e; names_result |].
    eff.
    destruct (n <? 10); names_result.
Qed.

(** The same for [get_multiple_token_balances_ethereum_thegraph]. *)
Lemma ethereum_page_result (account_address : string)
    (token_symbols : option (list string)) (api_key : string)
    (l : paging pyval) (w : world) :
  let req := ethereum_request account_address api_key (page l) in
  exists c l' w',
    ethereum_page account_address token_symbols api_key l w = (Ret c, l', w') /\
    (exists more, all_tokens l' = (all_tokens l ++ more)%list) /\
    (forall v, c = Eff.Return v ->
       exists msg, msg <> "" /\
         (v = tokens_result (all_tokens l') (PStr msg) \/
          v = tokens_result [] (PStr msg) /\
          exists resp,
            upstream (sent w) req = inr resp /\
            (status_code resp = 401 \/ status_code resp = 403))).
Proof.
  intros req. unfold ethereum_page. eff.
  fold (ethereum_request account_address api_key (page l)). fold req.
  destruct (upstream (sent w) req) as [e | resp] eqn:Hup.
  - destruct e; names_result.
  - eff.
    destruct (Z.eqb_spec (status_code resp) 401) as [H401 | H401];
      [names_result |].
    destruct (Z.eqb_spec (status_code resp) 403) as [H403 | H403];
      [names_result |].
    destruct (Z.eqb_spec (status_code resp) 429) as [H429 | H429];
      [names_result |].
    eff.
    destruct ((200 <=? status_code resp) && (status_code resp <=? 299));
      [| names_result].
    eff.
    destruct (json resp) as [e | data]; [destruct e; names_result |].
    eff.
    destruct (Py.get data "data" PNone) as [e | d]; [destruct e; names_result |].
    eff.
    destruct (Py.truthy d); cbn [negb]; [| names_result].
    eff.
    destruct (Py.item data "data") as [e | d']; [destruct e; names_result |].
    eff.
    destruct (Py.len d') as [e | n]; [destruct e; names_result |].
    eff.
    destruct (n =? 0); [names_result |].
    eff.
    destruct (Py.iter d') as [e | items]; [destruct e; names_result |].
    eff.
    rewrite (for_each_appended (ethereum_item token_symbols))
      by (intros; unfold ethereum_item; destruct (token_data _ _ _);
          [reflexivity | destruct (symbol_selected _ _) as [? | []]; reflexivity]).
    destruct (snd (appended (ethereum_item token_symbols) items)) as [e |];
      [destruct e; names_result |].
    eff.
    destruct (n <? 10); names_result.
Qed.

(** A loop whose iterations never raise does not raise, and what it
    returns is what its last iteration returned. *)
Lemma while_ends {L R} (cond : L -> bool) (body : M L (Eff.ctl R))
    (Q : L -> R -> Prop) :
  (forall l w, exists c l' w',
     body l w = (Ret c, l', w') /\ forall v, c = Eff.Return v -> Q l' v) ->
  forall fuel l w,
    match Eff.while fuel cond body l w with
    | (Ret (Some v), l', _) => Q l' v
    | (Ret None, _, _) => True
    | (Exc _, _, _) => False
    | (OutOfFuel, _, _) => True
    end.
Proof.
  intros Hbody fuel. induction fuel as [|fuel IH]; intros l w.
  - exact I.
  - cbn [Eff.while]. eff. destruct (cond l); [| exact I].
    destruct (Hbody l w) as (c & l' & w' & Hrun & Hret). rewrite Hrun.
    destruct c as [| | v]; [apply IH | exact I | exact (Hret v eq_refl)].
Qed.

(** Whenever the loop of [get_all_token_balances_thegraph] returns from
    inside, on an answer other than 401 and 403, the result holds the whole
    list gathered up to then; it never raises. *)
Lemma thegraph_loop_result (chain_info : ChainInfo.t)
    (account_address api_key : string) (fuel : nat) (l : paging pyval) (w : world) :
  match Eff.while fuel (fun _ => true)
          (thegraph_page chain_info account_address api_key) l w with
  | (Ret (Some v), l', _) => partial_result l' v
  | (Ret None, _, _) => True
  | (Exc _, _, _) => False
  | (OutOfFuel, _, _) => True
  end.
Proof.
  apply while_ends. clear l w. intros l w.
  destruct (thegraph_page_result chain_info account_address api_key l w)
    as (c & l' & w' & Hrun & _ & Hret).
  exists c, l', w'. split; [exact Hrun |].
  intros v Hv. destruct (Hret v Hv) as (msg & Hmsg & [Hkept | [Hlost Hauth]]);
    exists msg; (split; [exact Hmsg |]); [left; exact Hkept | right].
  split; [exact Hlost |]. destruct Hauth as (resp & Hup & Hst). eauto.
Qed.

Lemma ethereum_loop_result (account_address : string)
    (token_symbols : option (list string)) (api_key : string)
    (fuel : nat) (l : paging pyval) (w : world) :
  match Eff.while fuel (fun l => page l <=? max_pages)
          (ethereum_page account_address token_symbols api_key) l w with
  | (Ret (Some v), l', _) => partial_result l' v
  | (Ret None, _, _) => True
  | (Exc _, _, _) => False
  | (OutOfFuel, _, _) => True
  end.
Proof.
  apply while_ends. clear l w. intros l w.
  destruct (ethereum_page_result account_address token_symbols api_key l w)
    as (c & l' & w' & Hrun & _ & Hret).
  exists c, l', w'. split; [exact Hrun |].
  intros v Hv. destruct (Hret v Hv) as (msg & Hmsg & [Hkept | [Hlost Hauth]]);
    exists msg; (split; [exact Hmsg |]); [left; exact Hkept | right].
  split; [exact Hlost |]. destruct Hauth as (resp & Hup & Hst). eauto.
Qed.

(** [get_all_token_balances_thegraph] never raises: on enough fuel it
    returns a dictionary with the keys "tokens" and "error". *)
Lemma thegraph_listing_shape (fuel : nat) (account_address network : string)
    (api_key : option string) :
  match run (get_all_token_balances_thegraph fuel account_address network api_key) with
  | (Ret v, _) => exists tokens error, v = tokens_result tokens error
  | (Exc _, _) => False
  | (OutOfFuel, _) => True
  end.
Proof.
  unfold get_all_token_balances_thegraph.
  destruct (negb (opt_truthy _)); [eexists _, _; reflexivity |].
  destruct (get_chain_info network) as [chain_info |];
    [| eexists _, _; reflexivity].
  eff.
  match goal with
  | |- context [Eff.while fuel _ (thegraph_page ?c ?a ?k) ?l ?w] =>
      pose proof (thegraph_loop_result c a k fuel l w) as Hloop;
      destruct (Eff.while fuel (fun _ => true) (thegraph_page c a k) l w)
        as [[[[v |] | e |] l'] w']
  end.
  - destruct Hloop as (msg & _ & [-> | [-> _]]); eexists _, _; reflexivity.
  - eexists _, _; reflexivity.
  - exact Hloop.
  - exact I.
Qed.

(** Whatever the symbol, [get_token_balance_thegraph] on a supported
    network returns what [get_all_token_balances_thegraph] returns. *)
Lemma by_symbol_is_listing (fuel : nat)
    (account_address token_symbol network : string) (api_key : option string)
    (chain_info : ChainInfo.t) :
  opt_truthy api_key = true \/
  opt_truthy (Eff.getenv "THEGRAPH_API_KEY") = true ->
  get_chain_info network = Some chain_info ->
  run (get_token_balance_thegraph fuel account_address token_symbol network api_key) =
  run (get_all_token_balances_thegraph fuel account_address network api_key).
Proof.
  intros Hkey Hci.
  pose proof (thegraph_listing_shape fuel account_address network api_key) as Hshape.
  unfold get_token_balance_thegraph.
  rewrite (resolved_key _ _ Hkey), Hci. cbn [negb].
  assert (Hsame :
    get_all_token_balances_thegraph fuel account_address network
      (if negb (opt_truthy api_key) then Eff.getenv "THEGRAPH_API_KEY" else api_key) =
    get_all_token_balances_thegraph fuel account_address network api_key).
  { destruct (opt_truthy api_key) eqn:Hk; cbn [negb]; [reflexivity |].
    destruct Hkey as [Hkey | Hkey]; [discriminate Hkey |].
    unfold get_all_token_balances_thegraph.
    rewrite Hk. cbn [negb]. rewrite !Hkey. cbn [negb]. rewrite ?Hkey.
    reflexivity. }
  rewrite Hsame. unfold run in *. unfold Eff.bind at 1.
  destruct (get_all_token_balances_thegraph fuel account_address network api_key
              tt world0) as [[[v | e |] u] w]; [| reflexivity | reflexivity].
  destruct Hshape as (tokens & error & ->). destruct u. reflexivity.
Qed.

End Results.
